(** * Dataset splitting and remote-object datasets: a shallow embedding

    The development follows the four Python modules of the SDK:
    - [ml_platform_sdk/io/tos_files_io.py]       ([TorchTOSDataset]),
    - [volcengine_ml_platform/constant.py]       (file-name constant),
    - [volcengine_ml_platform/datasets/image_dataset.py] and
      [.../text_dataset.py]                      ([split], manifest parsing).

    Python values are embedded as a small tagged union, exceptions as an
    error result, the process-wide state (numpy's global generator, the
    file system) as an explicit world that every effectful function
    threads.  Files and directories are kept under the paths the file
    system resolves their names to, so that two names of one file
    denote one file. *)

From Stdlib Require Import ZArith String Ascii List Bool Lia DecimalString.
From Stdlib Require Import Floats.SpecFloat.
From stdpp Require Import base gmap strings list sets.

Set Warnings "-register-all".

Local Open Scope string_scope.
Local Open Scope list_scope.
Local Open Scope Z_scope.

(** ** Python values, exceptions and results *)

Module Py.

(** The exceptions the modelled code can raise.  [Exception] carries its
    message, as [raise Exception("...")] does. *)
Inductive exn : Type :=
| Exception (msg : string)
| AssertionError
| TypeError
| KeyError
| IndexError
| ValueError
| AttributeError
| OverflowError
| FileNotFoundError
| FileExistsError
| JSONDecodeError
| IOError.

Inductive result (A : Type) : Type :=
| Ok (a : A)
| Raise (e : exn).
Arguments Ok {A} a.
Arguments Raise {A} e.

Definition bind {A B} (r : result A) (k : A -> result B) : result B :=
  match r with
  | Ok a => k a
  | Raise e => Raise e
  end.

Definition is_ok {A} (r : result A) : bool :=
  match r with Ok _ => true | Raise _ => false end.

(** Values as [json.loads] produces them, plus [None]: dictionaries keep
    their insertion order and have string keys. *)
Inductive pyval : Type :=
| PNone
| PBool (b : bool)
| PInt (z : Z)
| PStr (s : string)
| PList (l : list pyval)
| PDict (d : list (string * pyval)).

(** [d[k]] on a dictionary: the binding for [k], if any. *)
Fixpoint dict_get (d : list (string * pyval)) (k : string) : option pyval :=
  match d with
  | [] => None
  | (k', v) :: d' => if String.eqb k' k then Some v else dict_get d' k
  end.

(** [l[i]] on a sequence, Python style: a negative index counts from the
    end, anything out of range raises [IndexError]. *)
Definition seq_index {A} (l : list A) (i : Z) : result A :=
  let n := Z.of_nat (length l) in
  let j := if i <? 0 then i + n else i in
  if (0 <=? j) && (j <? n)
  then match nth_error l (Z.to_nat j) with
       | Some x => Ok x
       | None => Raise IndexError
       end
  else Raise IndexError.

(** A [str] is kept as its UTF-8 text.  Its characters are the code
    points: a byte [10xxxxxx] continues the character before it. *)
Definition is_continuation (c : ascii) : bool :=
  (128 <=? nat_of_ascii c)%nat && (nat_of_ascii c <? 192)%nat.

(** Characters of a string, as one-character strings. *)
Fixpoint chars (s : string) : list string :=
  match s with
  | EmptyString => []
  | String c s' =>
      match s' with
      | EmptyString => [String c EmptyString]
      | String c' _ =>
          if is_continuation c'
          then match chars s' with
               | g :: gs => String c g :: gs
               | [] => [String c EmptyString]
               end
          else String c EmptyString :: chars s'
      end
  end.

(** The subscript operator [x[k]]. *)
Definition getitem (x k : pyval) : result pyval :=
  match x, k with
  | PDict d, PStr key =>
      match dict_get d key with
      | Some v => Ok v
      | None => Raise KeyError
      end
  | PDict _, (PInt _ | PBool _ | PNone) => Raise KeyError
  | PDict _, _ => Raise TypeError
  | PList l, PInt i => seq_index l i
  | PList l, PBool b => seq_index l (if b then 1 else 0)
  | PList _, _ => Raise TypeError
  | PStr s, PInt i => bind (seq_index (chars s) i) (fun c => Ok (PStr c))
  | PStr s, PBool b =>
      bind (seq_index (chars s) (if b then 1 else 0)) (fun c => Ok (PStr c))
  | PStr _, _ => Raise TypeError
  | _, _ => Raise TypeError
  end.

(** [len(x)]. *)
Definition len (x : pyval) : result Z :=
  match x with
  | PList l => Ok (Z.of_nat (length l))
  | PStr s => Ok (Z.of_nat (length (chars s)))
  | PDict d => Ok (Z.of_nat (length d))
  | _ => Raise TypeError
  end.

(** [assert b]. *)
Definition assert (b : bool) : result unit :=
  if b then Ok tt else Raise AssertionError.

(** *** [str.split(sep)] with a non-empty separator

    The string is scanned left to right; at every position that is not
    inside an already matched separator, a match of [sep] closes the
    current piece.  [skip] counts the characters of a matched separator
    that are still to be passed over, [cur] is the current piece. *)
Fixpoint split_go (sep : string) (skip : nat) (cur : string) (s : string)
  : list string :=
  match s with
  | EmptyString => [cur]
  | String c s' =>
      match skip with
      | S n => split_go sep n cur s'
      | O =>
          if String.prefix sep s
          then cur :: split_go sep (String.length sep - 1) EmptyString s'
          else split_go sep O (cur ++ String c EmptyString)%string s'
      end
  end.

Definition str_split (s sep : string) : result (list string) :=
  match sep with
  | EmptyString => Raise ValueError
  | _ => Ok (split_go sep O EmptyString s)
  end.

(** [sub in s] on strings: whether [sub] occurs in [s]. *)
Fixpoint str_contains (sub s : string) : bool :=
  match s with
  | EmptyString => String.prefix sub EmptyString
  | String _ s' => String.prefix sub s || str_contains sub s'
  end.

End Py.

Export Py.

Declare Scope py_scope.
Delimit Scope py_scope with py.
Notation "x <- c ;; k" := (Py.bind c (fun x => k))
  (at level 100, c at next level, right associativity) : py_scope.
Notation "c ;;; k" := (Py.bind c (fun _ => k))
  (at level 100, right associativity) : py_scope.

(** ** [ml_platform_sdk/io/tos_files_io.py] *)

Module TosFilesIO.

Section TorchTOSDataset.

(** What the module imports: the credential type and the object-store
    client of the SDK, Pillow's decoder, the builtin [int].  A decoded
    sample is any Python object; it is kept abstract. *)
Variables Credential Client Sample : Type.

(** Modelled from the spec: [initializer.global_config.get_credential]
    (module [ml_platform_sdk.initializer], absent from the sources) is
    the credential resolver that "supplies default credentials when
    none are explicitly passed". *)
Variable get_credential : Credential.

(** [tos.TOSClient(credential)] and [client.get_object(bucket, key)]
    followed by [rsp.read()] and [rsp.close()]: the raw bytes, or an
    exception of the store. *)
Variable TOSClient : Credential -> Client.
Variable get_object : Client -> pyval -> pyval -> result string.

(** [Image.open(io.BytesIO(raw_data)).convert('RGB')]. *)
Variable pil_decode : string -> result Sample.

(** The builtin [int(x)]. *)
Variable py_int : pyval -> result Z.

Record TorchTOSDataset : Type := {
  credential : Credential;
  decode : option (string -> result Sample);
  transform : option (Sample -> result Sample);
  target_transform : option (pyval -> result pyval);
  buckets : pyval;
  keys : pyval;
  annotations : pyval;
  tos_client : option Client (* [hasattr(self, "tos_client")] *)
}.

Definition set_dataset_indices (self : TorchTOSDataset)
    (buckets keys annotations : pyval) : TorchTOSDataset :=
  {| credential := credential self;
     decode := decode self;
     transform := transform self;
     target_transform := target_transform self;
     buckets := buckets;
     keys := keys;
     annotations := annotations;
     tos_client := tos_client self |}.

Definition is_not_none (x : pyval) : bool :=
  match x with PNone => false | _ => true end.

(** [__init__]; [manifest_info] defaults to [None], that is [PNone].
    The second assertion is a short-circuit conjunction: the length of
    [annotations] is only taken when the first two lengths agree. *)
Definition __init__ (manifest_info : pyval)
    (decode : option (string -> result Sample))
    (transform : option (Sample -> result Sample))
    (target_transform : option (pyval -> result pyval))
    (credential : option Credential) : result TorchTOSDataset :=
  (let self :=
     {| credential := match credential with
                      | Some c => c
                      | None => get_credential
                      end;
        decode := decode;
        transform := transform;
        target_transform := target_transform;
        buckets := PNone; keys := PNone; annotations := PNone;
        tos_client := None |} in
   buckets <- getitem manifest_info (PStr "buckets");;
   keys <- getitem manifest_info (PStr "keys");;
   annotations <- getitem manifest_info (PStr "annotations");;
   assert (is_not_none buckets && is_not_none keys
           && is_not_none annotations);;;
   lb <- len buckets;;
   lk <- len keys;;
   same <- (if lb =? lk
            then lb' <- len buckets;;
                 la <- len annotations;;
                 Ok (lb' =? la)
            else Ok false);;
   assert same;;;
   Ok (set_dataset_indices self buckets keys annotations))%py.

Definition __len__ (self : TorchTOSDataset) : result Z :=
  len (buckets self).

(** The two methods [__getitem__] reaches through [self], so that a
    subclass may override them. *)
Class Methods : Type := {
  _decode : string -> result Sample;
  _target_transform : pyval -> result pyval
}.

(** The bodies the class itself gives them. *)
Definition base_decode (raw_data : string) : result Sample :=
  pil_decode raw_data.

Definition base_target_transform (target : pyval) : result pyval :=
  (r <- getitem target (PStr "Result");;
   r0 <- getitem r (PInt 0);;
   d <- getitem r0 (PStr "Data");;
   d0 <- getitem d (PInt 0);;
   l <- getitem d0 (PStr "Label");;
   z <- py_int l;;
   Ok (PInt z))%py.

Instance base_methods : Methods :=
  {| _decode := base_decode; _target_transform := base_target_transform |}.

(** [__getitem__]: the result and the object afterwards (the client is
    created on first use and kept).  [torch.set_num_threads(1)] only
    touches the thread pool and is left out. *)
Definition __getitem__ {M : Methods} (self : TorchTOSDataset)
    (index : pyval) : result (Sample * pyval) * TorchTOSDataset :=
  let client :=
    match tos_client self with
    | Some c => c
    | None => TOSClient (credential self)
    end in
  let self' :=
    {| credential := credential self;
       decode := decode self;
       transform := transform self;
       target_transform := target_transform self;
       buckets := buckets self;
       keys := keys self;
       annotations := annotations self;
       tos_client := Some client |} in
  ((bucket <- getitem (buckets self) index;;
    key <- getitem (keys self) index;;
    annotation <- getitem (annotations self) index;;
    data <- get_object client bucket key;;
    data <- match decode self with
            | Some f => f data
            | None => _decode data
            end;;
    data <- match transform self with
            | Some f => f data
            | None => Ok data
            end;;
    annotation <- match target_transform self with
                  | Some f => f annotation
                  | None => _target_transform annotation
                  end;;
    Ok (data, annotation))%py, self').

(** The default label extraction in the words of the specification:
    first "Result" entry, then first "Data" entry, then the "Label"
    field (which is then coerced to an integer). *)
Definition spec_label_field (annotation : pyval) : option pyval :=
  match annotation with
  | PDict a =>
      match dict_get a "Result" with
      | Some (PList (PDict r0 :: _)) =>
          match dict_get r0 "Data" with
          | Some (PList (PDict d0 :: _)) => dict_get d0 "Label"
          | _ => None
          end
      | _ => None
      end
  | _ => None
  end.

End TorchTOSDataset.

Arguments credential {Credential Client Sample} _.
Arguments decode {Credential Client Sample} _.
Arguments transform {Credential Client Sample} _.
Arguments target_transform {Credential Client Sample} _.
Arguments buckets {Credential Client Sample} _.
Arguments keys {Credential Client Sample} _.
Arguments annotations {Credential Client Sample} _.
Arguments tos_client {Credential Client Sample} _.
Arguments __len__ {Credential Client Sample} _.
Arguments _decode {Sample} _ _.
Arguments _target_transform {Sample} _ _.
Arguments base_decode {Sample} _ _.
Arguments base_methods {Sample} _ _.

End TosFilesIO.

(** ** Exceptions together with state *)

Module SE.

(** A computation over a state [S] that returns or raises; the state
    survives a raise, as the effects of a Python call do. *)
Definition M (S A : Type) : Type := S -> result A * S.

Definition ret {S A} (a : A) : M S A := fun s => (Ok a, s).

Definition raise {S A} (e : exn) : M S A := fun s => (Raise e, s).

Definition bind {S A B} (c : M S A) (k : A -> M S B) : M S B :=
  fun s =>
    match c s with
    | (Ok a, s') => k a s'
    | (Raise e, s') => (Raise e, s')
    end.

Definition lift {S A} (r : result A) : M S A := fun s => (r, s).

Definition get {S} : M S S := fun s => (Ok s, s).

Definition modify {S} (f : S -> S) : M S unit := fun s => (Ok tt, f s).

End SE.

Declare Scope se_scope.
Delimit Scope se_scope with se.
Notation "x <- c ;; k" := (SE.bind c (fun x => k))
  (at level 100, c at next level, right associativity) : se_scope.
Notation "c ;;; k" := (SE.bind c (fun _ => k))
  (at level 100, right associativity) : se_scope.

(** ** Python floats: IEEE 754 binary64 *)

Module Float64.

Definition prec : Z := 53.
Definition emax : Z := 1024.

(** A Python [float] is a [spec_float] that is valid for binary64. *)
Definition is_float (x : spec_float) : bool := valid_binary prec emax x.

(** Conversion of an [int] operand in mixed arithmetic: correctly
    rounded, [OverflowError] when the integer is beyond the finite
    range. *)
Definition of_int (z : Z) : result spec_float :=
  match binary_normalize prec emax z 0 false with
  | S754_infinity _ => Raise OverflowError
  | f => Ok f
  end.

Definition one : spec_float := S754_finite false 4503599627370496 (-52).

Definition sub : spec_float -> spec_float -> spec_float := SFsub prec emax.
Definition mul : spec_float -> spec_float -> spec_float := SFmul prec emax.
Definition leb : spec_float -> spec_float -> bool := SFleb.

(** [x / y] for a divisor other than zero. *)
Definition div : spec_float -> spec_float -> spec_float := SFdiv prec emax.

(** [math.floor(x)]: the largest integer not above [x]. *)
Definition floor (x : spec_float) : result Z :=
  match x with
  | S754_zero _ => Ok 0
  | S754_infinity _ => Raise OverflowError
  | S754_nan => Raise ValueError
  | S754_finite s m e =>
      let sm := if s then Z.neg m else Z.pos m in
      Ok (match e with
          | Z0 => sm
          | Z.pos p => sm * 2 ^ Z.pos p
          | Z.neg p => sm / 2 ^ Z.pos p
          end)
  end.

(** A float [x] with [0 <= x <= 1]. *)
Definition in_unit_interval (x : spec_float) : bool :=
  is_float x && leb (S754_zero false) x && leb x one.

End Float64.

(** ** [volcengine_ml_platform/constant.py] *)

Module Constant.

Definition DATASET_LOCAL_METADATA_FILENAME : string :=
  "local_metadata.manifest".

End Constant.

(** ** [volcengine_ml_platform/datasets]: [ImageDataset], [TextDataset] *)

Module Datasets.

(** [os.path.join(a, b)] for two components (POSIX). *)
Definition ends_with_slash (a : string) : bool :=
  match String.get (String.length a - 1) a with
  | Some c => Ascii.eqb c "/"
  | None => false
  end.

Definition os_path_join (a b : string) : string :=
  if String.prefix "/" b then b
  else if String.eqb a "" then b
  else if ends_with_slash a then (a ++ b)%string
  else (a ++ "/" ++ b)%string.

(** The attributes of a dataset object that [split] reads and writes.
    [ImageDataset] and [TextDataset] share them (they come from the base
    class [_Dataset]). *)
Record Dataset : Type := {
  local_path : string;
  data_count : Z;
  created : bool
}.

(** Modelled from the spec: the constructor of [_Dataset] (module
    [datasets/dataset.py], absent from the sources): "[created = false]
    until a download or split materializes a local manifest;
    [data_count] is set at that point". *)
Definition new_dataset (local_path : string) : Dataset :=
  {| local_path := local_path; data_count := 0; created := false |}.

Definition set_data_count (d : Dataset) (n : Z) : Dataset :=
  {| local_path := local_path d; data_count := n; created := created d |}.

Definition set_created (d : Dataset) (b : bool) : Dataset :=
  {| local_path := local_path d; data_count := data_count d; created := b |}.

(** Modelled from the spec: [_Dataset._manifest_path] (absent from the
    sources): "the canonical local materialized-manifest filename is
    fixed"; [split] itself writes the manifest of a dataset it returns
    at this path under the dataset's [local_path]. *)
Definition _manifest_path (self : Dataset) : string :=
  os_path_join (local_path self) Constant.DATASET_LOCAL_METADATA_FILENAME.

(** *** URL parsing, lines 173-175 of [parse_image_manifest] *)

Definition parse_url (url : string) : result (string * string) :=
  (parts <- str_split url "//";;
   rest <- seq_index parts 1;;
   segs <- str_split rest "/";;
   bucket <- seq_index segs 0;;
   parts' <- str_split url (bucket ++ "/")%string;;
   key <- seq_index parts' 1;;
   Ok (bucket, key))%py.

(** [<str>.split]: only strings have the method. *)
Definition as_str (x : pyval) : result string :=
  match x with
  | PStr s => Ok s
  | _ => Raise AttributeError
  end.

(** *** Text files

    A text file is kept as the list of its lines, each without the
    newline that ends it.  Writing goes through the bytes: [text_of] is
    the text of a file, [lines_of] reads a text back. *)
Definition newline : ascii := ascii_of_nat 10.

Fixpoint text_of (lines : list string) : string :=
  match lines with
  | [] => EmptyString
  | line :: rest => (line ++ String newline (text_of rest))%string
  end.

Fixpoint lines_of (cur s : string) : list string :=
  match s with
  | EmptyString =>
      match cur with
      | EmptyString => []
      | _ => [cur]
      end
  | String c s' =>
      if Ascii.eqb c newline then cur :: lines_of EmptyString s'
      else lines_of (cur ++ String c EmptyString)%string s'
  end.

Fixpoint string_drop (n : nat) (s : string) : string :=
  match n, s with
  | O, _ => s
  | S n', EmptyString => EmptyString
  | S n', String _ s' => string_drop n' s'
  end.

Section Environment.

(** The [json] module: [loads] fails with [JSONDecodeError], [dump]
    writes the text of a value. *)
Variable json_loads : string -> option pyval.
Variable json_dumps : pyval -> string.

(** numpy's global generator.  [np.random.seed] replaces its state;
    [np.random.choice(n, k, replace=False)] checks the sizes and then
    returns the first [k] entries of a random permutation of
    [0 .. n-1], which [permutation_prefix] stands for. *)
Variable rng_state : Type.
Variable np_random_seed : Z -> rng_state.
Variable permutation_prefix : rng_state -> Z -> Z -> list Z * rng_state.

(** Modelled from the spec: [dataset_copy_file(manifest_line,
    source_dir, destination_dir)] (module [datasets/dataset.py],
    absent from the sources), which "copies the backing payload file
    into the destination directory"; the record is left unmodified and
    "any I/O failure during copy aborts the whole operation".  The
    payload files live in a store of their own. *)
Variable Payload : Type.
Variable dataset_copy_file :
  pyval -> string -> string -> Payload -> option Payload.

(** The file system's reading of a path: [realpath p] is the file or
    directory that [p] names (what [os.path.realpath] returns), so that
    two paths name one file exactly when they resolve alike. *)
Variable realpath : string -> string.

(** The process-wide state: the generator, the directories and the text
    files (both under their resolved paths) and the payload files. *)
Record world : Type := {
  rng : rng_state;
  dirs : gset string;
  files : gmap string (list string);
  payload : Payload
}.

Definition set_rng (r : rng_state) (w : world) : world :=
  {| rng := r; dirs := dirs w; files := files w; payload := payload w |}.

Definition set_dirs (d : gset string) (w : world) : world :=
  {| rng := rng w; dirs := d; files := files w; payload := payload w |}.

Definition set_files (f : gmap string (list string)) (w : world) : world :=
  {| rng := rng w; dirs := dirs w; files := f; payload := payload w |}.

Definition set_payload (p : Payload) (w : world) : world :=
  {| rng := rng w; dirs := dirs w; files := files w; payload := p |}.

(** [np.random.choice(n, k, replace=False)]. *)
Definition np_random_choice (n k : Z) : SE.M world (list Z) :=
  fun w =>
    if (k <? 0) || (n <? k) then (Raise ValueError, w)
    else let '(l, r) := permutation_prefix (rng w) n k in
         (Ok l, set_rng r w).

(** [math.floor(line_count * (1 - ratio))]. *)
Definition test_count (line_count : Z) (ratio : spec_float) : result Z :=
  (n <- Float64.of_int line_count;;
   Float64.floor (Float64.mul n (Float64.sub Float64.one ratio)))%py.

(** [np.random.seed(seed)] with an [int]: a seed outside
    [0 .. 2^32 - 1] raises [ValueError] and leaves the generator as it
    is. *)
Definition seed_generator (seed : Z) : SE.M world unit :=
  if (0 <=? seed) && (seed <? 2 ^ 32)
  then SE.modify (set_rng (np_random_seed seed))
  else SE.raise ValueError.

(** Lines 77-84: seed the generator, draw the test index set. *)
Definition draw_test_index_set (line_count : Z) (ratio : spec_float)
    (random_state : Z) : SE.M world (gset Z) :=
  (seed_generator random_state;;;
   k <- SE.lift (test_count line_count ratio);;
   l <- np_random_choice line_count k;;
   SE.ret (list_to_set l))%se.

(** [os.makedirs(d, exist_ok=True)]: the empty name is no directory
    ([FileNotFoundError]), and a regular file in the place of the
    directory is not tolerated ([FileExistsError]). *)
Definition makedirs (d : string) : SE.M world unit :=
  fun w =>
    if String.eqb d "" then (Raise FileNotFoundError, w)
    else match files w !! realpath d with
         | Some _ => (Raise FileExistsError, w)
         | None => (Ok tt, set_dirs ({[realpath d]} ∪ dirs w) w)
         end.

(** [open(path, mode="w")]: the file is created or truncated now; what
    is written afterwards stays in the handle until it is closed. *)
Definition open_w (path : string) : SE.M world unit :=
  SE.modify (fun w => set_files (<[realpath path := []]> (files w)) w).

(** Closing a handle writes its text from the start of the file, byte
    for byte.  The file was truncated when the handle was opened, so
    the text becomes the whole file, unless another handle on the same
    file was closed in between: then it overwrites the first bytes of
    what that handle wrote.  (The handles of [split] write nothing
    before they are closed as long as their text fits the buffer of
    the handle.) *)
Definition flush (buf old : list string) : list string :=
  let text := text_of buf in
  lines_of EmptyString
    (text ++ string_drop (String.length text) (text_of old))%string.

Definition close (path : string) (buf : list string) : SE.M world unit :=
  SE.modify (fun w =>
    set_files (<[realpath path :=
                   flush buf (default [] (files w !! realpath path))]>
                 (files w)) w).

(** [open(path)] for reading, and the lines the iteration yields. *)
Definition read_lines (path : string) : SE.M world (list string) :=
  fun w =>
    match files w !! realpath path with
    | Some ls => (Ok ls, w)
    | None => (Raise FileNotFoundError, w)
    end.

(** What the loop of [split] mutates: the two open manifest files and
    the payload store. *)
Record loop_state : Type := {
  testing_manifest_file : list string;
  training_manifest_file : list string;
  store : Payload
}.

(** Lines 115-133: one iteration per line, [index] counting them. *)
Fixpoint split_loop (test_index_set : gset Z)
    (source_dir training_dir testing_dir : string)
    (lines : list string) (index : Z) : SE.M loop_state unit :=
  match lines with
  | [] => SE.ret tt
  | line :: rest =>
      fun st =>
        match json_loads line with
        | None => (Raise JSONDecodeError, st)
        | Some manifest_line =>
            if decide (index ∈ test_index_set) then
              match dataset_copy_file manifest_line source_dir
                      testing_dir (store st) with
              | None => (Raise IOError, st)
              | Some p =>
                  split_loop test_index_set source_dir training_dir
                    testing_dir rest (index + 1)
                    {| testing_manifest_file :=
                         testing_manifest_file st
                           ++ [json_dumps manifest_line];
                       training_manifest_file :=
                         training_manifest_file st;
                       store := p |}
              end
            else
              match dataset_copy_file manifest_line source_dir
                      training_dir (store st) with
              | None => (Raise IOError, st)
              | Some p =>
                  split_loop test_index_set source_dir training_dir
                    testing_dir rest (index + 1)
                    {| testing_manifest_file :=
                         testing_manifest_file st;
                       training_manifest_file :=
                         training_manifest_file st
                           ++ [json_dumps manifest_line];
                       store := p |}
              end
        end
  end.

(** Lines 103-133: the three nested [with] blocks.  Both manifest files
    are opened for writing, then the manifest of [self] is opened and
    read; the handles are closed on the way out, the inner one first,
    whether the body raised or not. *)
Definition write_manifests (self : Dataset) (test_index_set : gset Z)
    (training_dir testing_dir : string)
    (train_metadata_path test_metadata_path : string)
  : SE.M world unit :=
  (open_w test_metadata_path;;;
   open_w train_metadata_path;;;
   fun w =>
     let st0 := {| testing_manifest_file := [];
                   training_manifest_file := [];
                   store := payload w |} in
     let '(r, st) :=
       match files w !! realpath (_manifest_path self) with
       | Some lines =>
           split_loop test_index_set (local_path self) training_dir
             testing_dir lines 0 st0
       | None => (Raise FileNotFoundError, st0)
       end in
     (close train_metadata_path (training_manifest_file st);;;
      close test_metadata_path (testing_manifest_file st);;;
      SE.lift r) (set_payload (store st) w))%se.

(** [split], lines 48-137 of [image_dataset.py]; the method of
    [TextDataset] is the same text with the other class name. *)
Definition not_created : exn := Exception "datasets has not been created".

Definition split (self : Dataset) (training_dir testing_dir : string)
    (ratio : spec_float) (random_state : Z)
  : SE.M world (Dataset * Dataset) :=
  if negb (created self) then SE.raise not_created
  else
    (let line_count := data_count self in
     test_index_set <- draw_test_index_set line_count ratio random_state;;
     makedirs testing_dir;;;
     makedirs training_dir;;;
     let train_dataset := new_dataset training_dir in
     let test_dataset := new_dataset testing_dir in
     k <- SE.lift (test_count line_count ratio);;
     let test_dataset := set_data_count test_dataset k in
     let train_dataset :=
       set_data_count train_dataset (line_count - data_count test_dataset) in
     let train_metadata_path :=
       os_path_join training_dir Constant.DATASET_LOCAL_METADATA_FILENAME in
     let test_metadata_path :=
       os_path_join testing_dir Constant.DATASET_LOCAL_METADATA_FILENAME in
     write_manifests self test_index_set training_dir testing_dir
       train_metadata_path test_metadata_path;;;
     let train_dataset := set_created train_dataset true in
     let test_dataset := set_created test_dataset true in
     SE.ret (train_dataset, test_dataset))%se.

(** *** [parse_image_manifest], lines 167-181 *)

(** The body of the loop: the three values appended for one line. *)
Definition parse_manifest_line (line : string)
  : result (pyval * pyval * pyval) :=
  (manifest_line <- match json_loads line with
                    | Some v => Ok v
                    | None => Raise JSONDecodeError
                    end;;
   data <- getitem manifest_line (PStr "Data");;
   url <- getitem data (PStr "ImageURL");;
   url <- as_str url;;
   bk <- parse_url url;;
   annotation <- getitem manifest_line (PStr "Annotation");;
   Ok (PStr (fst bk), PStr (snd bk), annotation))%py.

Fixpoint parse_lines (lines : list string)
    (buckets keys annotations : list pyval)
  : result (list pyval * list pyval * list pyval) :=
  match lines with
  | [] => Ok (buckets, keys, annotations)
  | line :: rest =>
      (bka <- parse_manifest_line line;;
       parse_lines rest (buckets ++ [bka.1.1]) (keys ++ [bka.1.2])
         (annotations ++ [bka.2]))%py
  end.

Definition manifest_info_of (bka : list pyval * list pyval * list pyval)
  : pyval :=
  PDict [("buckets", PList bka.1.1); ("keys", PList bka.1.2);
         ("annotations", PList bka.2)].

Definition parse_image_manifest (manifest_file_path : string)
  : SE.M world pyval :=
  (lines <- read_lines manifest_file_path;;
   bka <- SE.lift (parse_lines lines [] [] []);;
   SE.ret (manifest_info_of bka))%se.

(** *** [load_as_np], lines 139-165 *)

(** PIL and numpy: [Image.open] of a path, [np.asarray] of an image
    (which reads the pixels) and [np.array] of the list of the arrays;
    each of them can raise. *)
Variable Image Array NdArray : Type.
Variable Image_open : pyval -> result Image.
Variable np_asarray : Image -> result Array.
Variable np_array : list Array -> result NdArray.

(** The body of the loop below the two tests: the array and the
    annotation appended for one record. *)
Definition load_record (manifest_line : pyval) : result (Array * pyval) :=
  (data <- getitem manifest_line (PStr "Data");;
   file_path <- getitem data (PStr "FilePath");;
   image <- Image_open file_path;;
   array <- np_asarray image;;
   annotation <- getitem manifest_line (PStr "Annotation");;
   Ok (array, annotation))%py.

(** The loop over [enumerate(f)]: [i] is the position of the first of
    [lines].  A line is decoded before the position is looked at;
    [continue] goes on with the next line, [break] leaves the loop. *)
Fixpoint load_loop (offset limit : Z) (i : Z) (lines : list string)
    (images : list Array) (annotations : list pyval)
  : result (list Array * list pyval) :=
  match lines with
  | [] => Ok (images, annotations)
  | line :: rest =>
      (manifest_line <- match json_loads line with
                        | Some v => Ok v
                        | None => Raise JSONDecodeError
                        end;;
       if i <? offset
       then load_loop offset limit (i + 1) rest images annotations
       else if negb (limit =? -1) && (offset + limit <=? i)
       then Ok (images, annotations)
       else
         r <- load_record manifest_line;;
         load_loop offset limit (i + 1) rest
           (images ++ [r.1]) (annotations ++ [r.2]))%py
  end.

Definition load_as_np (self : Dataset) (offset limit : Z)
  : SE.M world (NdArray * list pyval) :=
  (lines <- read_lines (_manifest_path self);;
   r <- SE.lift (load_loop offset limit 0 lines [] []);;
   images <- SE.lift (np_array r.1);;
   SE.ret (images, r.2))%se.

End Environment.

Arguments rng {rng_state Payload} _.
Arguments dirs {rng_state Payload} _.
Arguments files {rng_state Payload} _.
Arguments payload {rng_state Payload} _.
Arguments set_rng {rng_state Payload} _ _.
Arguments set_dirs {rng_state Payload} _ _.
Arguments set_files {rng_state Payload} _ _.
Arguments set_payload {rng_state Payload} _ _.
Arguments testing_manifest_file {Payload} _.
Arguments training_manifest_file {Payload} _.
Arguments store {Payload} _.


(** Following the spec: the number of test records is
    "floor(N * (1 - ratio))", here for a ratio given as the fraction
    [num / den]. *)
Definition spec_test_count (N num den : Z) : Z := N * (den - num) / den.




(** The records at the positions that satisfy [keep], in their order;
    [index] is the position of the first one. *)
Fixpoint routed {A} (keep : Z -> bool) (index : Z) (records : list A)
  : list A :=
  match records with
  | [] => []
  | r :: rest =>
      if keep index then r :: routed keep (index + 1) rest
      else routed keep (index + 1) rest
  end.

(** The positions at which the loop of [load_as_np] appends: from
    [offset] on, and below [offset + limit] unless [limit] is [-1]. *)
Definition in_window (offset limit : Z) (j : Z) : bool :=
  (offset <=? j) && ((limit =? -1) || (j <? offset + limit)).

End Datasets.

(** ** A reference environment

    Concrete stand-ins for what the code imports, so that the model can be
    run: a serializer for values without special characters with its
    inverse on a finite set of sample records, a generator that draws a
    rotation of [0 .. n-1], a payload store that logs the copies. *)

Module Ref.

Definition quote : string := String (ascii_of_nat 34) EmptyString.

Definition string_of_Z (z : Z) : string :=
  DecimalString.NilZero.string_of_int (Z.to_int z).

Fixpoint join (sep : string) (l : list string) : string :=
  match l with
  | [] => ""
  | [x] => x
  | x :: l' => (x ++ sep ++ join sep l')%string
  end.

Fixpoint render (v : pyval) : string :=
  match v with
  | PNone => "null"
  | PBool true => "true"
  | PBool false => "false"
  | PInt z => string_of_Z z
  | PStr s => (quote ++ s ++ quote)%string
  | PList l => ("[" ++ join ", " (map render l) ++ "]")%string
  | PDict d =>
      ("{" ++ join ", "
                (map (fun kv => (quote ++ fst kv ++ quote ++ ": "
                                   ++ render (snd kv))%string) d)
           ++ "}")%string
  end.

(** The text is written on one line. *)
Fixpoint on_one_line (s : string) : string :=
  match s with
  | EmptyString => EmptyString
  | String c s' =>
      if Ascii.eqb c Datasets.newline then on_one_line s'
      else String c (on_one_line s')
  end.

Definition json_dumps (v : pyval) : string := on_one_line (render v).

Definition record (url : string) (label : Z) : pyval :=
  PDict [("Data", PDict [("ImageURL", PStr url)]);
         ("Annotation",
          PDict [("Result", PList [PDict [("Data",
                    PList [PDict [("Label", PInt label)]])]])])].

Definition samples : list pyval :=
  [ record "tos://my-bucket/path/to/img.jpg" 3;
    record "tos://my-bucket/cat.jpg" 0;
    record "tos://data/images/data/cat.jpg" 1;
    PDict []; PList []; PInt 1 ].

Definition json_loads (s : string) : option pyval :=
  List.find (fun v => String.eqb (json_dumps v) s) samples.

Definition rng_state : Type := Z.

Definition np_random_seed (seed : Z) : rng_state := seed.

(** A file system without links, in which relative names start at the
    current directory: a leading [./] changes nothing. *)
Fixpoint realpath (p : string) : string :=
  match p with
  | String "." (String "/" rest) => realpath rest
  | _ => p
  end.

Definition permutation_prefix (st : rng_state) (n k : Z)
  : list Z * rng_state :=
  (map (fun i => (st + i) mod n) (seqZ 0 k), st + k).

Definition Payload : Type := list (pyval * string * string).

Definition dataset_copy_file (manifest_line : pyval)
    (source_dir destination_dir : string) (p : Payload) : option Payload :=
  Some (p ++ [(manifest_line, source_dir, destination_dir)])%list.

Definition py_int (x : pyval) : result Z :=
  match x with
  | PInt z => Ok z
  | PBool b => Ok (if b then 1 else 0)
  | PStr _ => Raise ValueError
  | _ => Raise TypeError
  end.

(** Records of a materialized dataset: the path of the local copy and
    an annotation. *)
Definition local_record (file_path : string) (label : Z) : pyval :=
  PDict [("Data", PDict [("FilePath", PStr file_path)]);
         ("Annotation", PInt label)].

Definition local_samples : list pyval :=
  [ local_record "ds/a.jpg" 0; local_record "ds/b.jpg" 1;
    local_record "ds/c.jpg" 2; local_record "ds/d.jpg" 3 ].

Definition json_loads_local (s : string) : option pyval :=
  List.find (fun v => String.eqb (json_dumps v) s) local_samples.

(** Stand-ins for PIL and numpy: an image and its array are the path the
    image was opened from, the array of arrays is their list. *)
Definition Image_open (file_path : pyval) : result string :=
  match file_path with
  | PStr s => Ok s
  | _ => Raise AttributeError
  end.

End Ref.

(** ** Sample inputs

    Concrete datasets and worlds of the reference environment, on which
    the theorems below are instantiated. *)

Module Samples.

Import TosFilesIO Datasets.

Definition sample_info : list (string * pyval) :=
  [("buckets", PList [PStr "my-bucket"]);
   ("keys", PList [PStr "cat.jpg"]);
   ("annotations",
    PList [PDict [("Result",
             PList [PDict [("Data", PList [PDict [("Label", PInt 4)]])]])]])].

Definition sample_buckets : list pyval := [PStr "my-bucket"].
Definition sample_keys : list pyval := [PStr "cat.jpg"].
Definition sample_annotations : list pyval :=
  [PDict [("Result",
     PList [PDict [("Data", PList [PDict [("Label", PInt 4)]])]])]].

Definition sample_dataset : TorchTOSDataset unit unit string :=
  {| credential := tt; decode := None; transform := Some (fun x => Ok x);
     target_transform := None;
     buckets := PList sample_buckets; keys := PList sample_keys;
     annotations := PList sample_annotations; tos_client := None |}.

Definition sample_annotation : pyval :=
  PDict [("Result",
    PList [PDict [("Data", PList [PDict [("Label", PInt 4)]])]])].

(** A materialized dataset of three records under [ds]. *)
Definition sample_lines : list string :=
  [ Ref.json_dumps (Ref.record "tos://my-bucket/path/to/img.jpg" 3);
    Ref.json_dumps (Ref.record "tos://my-bucket/cat.jpg" 0);
    Ref.json_dumps (Ref.record "tos://data/images/data/cat.jpg" 1) ].

Definition sample_world : world Ref.rng_state Ref.Payload :=
  {| rng := 7;
     dirs := {["ds"]};
     files := {[ "ds/local_metadata.manifest" := sample_lines ]};
     payload := [] |}.

Definition sample_ds : Dataset :=
  {| local_path := "ds"; data_count := 3; created := true |}.

(** The double nearest to 0.5, and the [split] of the reference
    environment. *)
Definition half : spec_float := S754_finite false 4503599627370496 (-53).

Definition ref_split :=
  split Ref.json_loads Ref.json_dumps Ref.rng_state Ref.np_random_seed
    Ref.permutation_prefix Ref.Payload Ref.dataset_copy_file Ref.realpath.

Definition ref_draw :=
  draw_test_index_set Ref.rng_state Ref.np_random_seed
    Ref.permutation_prefix Ref.Payload.

(** The same files with the generator in another state. *)
Definition sample_world2 : world Ref.rng_state Ref.Payload :=
  {| rng := 99;
     dirs := {["ds"]};
     files := {[ "ds/local_metadata.manifest" := sample_lines ]};
     payload := [] |}.

Definition uncreated_ds : Dataset :=
  {| local_path := "ds"; data_count := 3; created := false |}.





(** The float [0.8], the default ratio: [8 / 10]. *)
Definition ratio_08 : spec_float :=
  S754_finite false 7205759403792794 (-53).

(** A materialized dataset of ten records under [ds]. *)
Definition ten_lines : list string :=
  sample_lines ++ sample_lines ++ sample_lines ++ take 1 sample_lines.

Definition ten_world : world Ref.rng_state Ref.Payload :=
  {| rng := 7;
     dirs := {["ds"]};
     files := {[ "ds/local_metadata.manifest" := ten_lines ]};
     payload := [] |}.

Definition ten_ds : Dataset :=
  {| local_path := "ds"; data_count := 10; created := true |}.


(** A dataset with the three hooks. *)
Definition hooked_dataset : TorchTOSDataset unit unit string :=
  {| credential := tt;
     decode := Some (fun raw => Ok (raw ++ "-decoded")%string);
     transform := Some (fun x => Ok (x ++ "-transformed")%string);
     target_transform := Some (fun _ => Ok (PInt 9));
     buckets := PList sample_buckets; keys := PList sample_keys;
     annotations := PList sample_annotations; tos_client := None |}.


Definition broken_lines : list string :=
  [ Ref.json_dumps (Ref.record "tos://my-bucket/path/to/img.jpg" 3);
    "{";
    Ref.json_dumps (Ref.record "tos://data/images/data/cat.jpg" 1) ].

Definition broken_world : world Ref.rng_state Ref.Payload :=
  {| rng := 7;
     dirs := {["ds"]};
     files := {[ "ds/local_metadata.manifest" := broken_lines ]};
     payload := [] |}.

(** A materialized dataset of four local records, the same with the
    last record cut off, and one with a line that is no JSON text. *)
Definition local_lines : list string :=
  map Ref.json_dumps Ref.local_samples.

Definition local_records : list (string * pyval) :=
  [("ds/a.jpg", PInt 0); ("ds/b.jpg", PInt 1); ("ds/c.jpg", PInt 2);
   ("ds/d.jpg", PInt 3)].

Definition local_world : world Ref.rng_state Ref.Payload :=
  {| rng := 7;
     dirs := {["ds"]};
     files := {[ "ds/local_metadata.manifest" := local_lines ]};
     payload := [] |}.

Definition shorter_world : world Ref.rng_state Ref.Payload :=
  {| rng := 7;
     dirs := {["ds"]};
     files := {[ "ds/local_metadata.manifest" := take 3 local_lines ]};
     payload := [] |}.

Definition broken_local_world : world Ref.rng_state Ref.Payload :=
  {| rng := 7;
     dirs := {["ds"]};
     files := {[ "ds/local_metadata.manifest"
                 := take 1 local_lines ++ "{" :: drop 2 local_lines ]};
     payload := [] |}.

Definition ref_load :=
  load_as_np Ref.json_loads_local Ref.rng_state Ref.Payload Ref.realpath
    string string (list string) Ref.Image_open Ok Ok.

End Samples.

(** * Properties *)

(** ** Python values *)

Module PyFacts.

Lemma seq_index_0_cons {A} (x : A) (l : list A) : seq_index (x :: l) 0 = Ok x.
Proof.
  unfold seq_index. cbn [length]. rewrite Nat2Z.inj_succ.
  replace (0 <? 0) with false by reflexivity. cbn [Z.leb Z.compare andb].
  destruct (Z.ltb_spec 0 (Z.succ (Z.of_nat (length l)))); [reflexivity | lia].
Qed.

Lemma seq_index_0_nil {A} : seq_index (@nil A) 0 = Raise IndexError.
Proof. reflexivity. Qed.

Lemma seq_index_0 {A} (l : list A) :
  seq_index l 0 = match l with x :: _ => Ok x | [] => Raise IndexError end.
Proof. destruct l; [apply seq_index_0_nil | apply seq_index_0_cons]. Qed.

Lemma getitem_list_0 (l : list pyval) :
  getitem (PList l) (PInt 0)
  = match l with x :: _ => Ok x | [] => Raise IndexError end.
Proof. apply seq_index_0. Qed.

Lemma getitem_str_key_ok (x v : pyval) (k : string) :
  getitem x (PStr k) = Ok v -> exists d, x = PDict d /\ dict_get d k = Some v.
Proof.
  destruct x; cbn; try discriminate.
  intros H. exists d. split; [reflexivity|].
  destruct (dict_get d k); congruence.
Qed.

Lemma getitem_0_dict_ok (x : pyval) (d : list (string * pyval)) :
  getitem x (PInt 0) = Ok (PDict d) -> exists l, x = PList (PDict d :: l).
Proof.
  destruct x; cbn; try discriminate.
  - destruct (seq_index (chars s) 0); cbn; discriminate.
  - rewrite seq_index_0. destruct l; [discriminate|].
    intros [= ->]. eauto.
Qed.

End PyFacts.

(** ** [TorchTOSDataset] *)

Module TosFilesIOFacts.

Import TosFilesIO PyFacts Samples.

Section Facts.

Context {Credential Client Sample : Type}.
Variable get_credential : Credential.
Variable TOSClient : Credential -> Client.
Variable get_object : Client -> pyval -> pyval -> result string.
Variable pil_decode : string -> result Sample.
Variable py_int : pyval -> result Z.

Abbreviation dataset := (TorchTOSDataset Credential Client Sample).
Abbreviation init := (@__init__ Credential Client Sample get_credential).
Abbreviation base_tt := (base_target_transform py_int).
Abbreviation get_item M :=
  (@__getitem__ Credential Client Sample TOSClient get_object M).

(** The source extractor and the path of the specification agree. *)
Lemma base_target_transform_path (annotation v : pyval) :
  spec_label_field annotation = Some v ->
  base_tt annotation = (z <- py_int v;; Ok (PInt z))%py.
Proof.
  unfold spec_label_field, base_target_transform.
  destruct annotation as [| | | | |a]; try discriminate.
  cbn [getitem].
  destruct (dict_get a "Result") as [[| | | |[|[| | | | |r0] rs]|]|];
    try discriminate.
  cbn [Py.bind]. rewrite getitem_list_0. cbn [Py.bind getitem].
  destruct (dict_get r0 "Data") as [[| | | |[|[| | | | |d0] ds]|]|];
    try discriminate.
  cbn [Py.bind]. rewrite getitem_list_0. cbn [Py.bind getitem].
  intros ->. reflexivity.
Qed.

Lemma base_target_transform_ok (annotation label : pyval) :
  base_tt annotation = Ok label ->
  exists v z, spec_label_field annotation = Some v
              /\ py_int v = Ok z /\ label = PInt z.
Proof.
  unfold base_target_transform. intros H.
  destruct (getitem annotation (PStr "Result")) as [r|] eqn:E1;
    [|discriminate].
  cbn [Py.bind] in H.
  destruct (getitem r (PInt 0)) as [r0|] eqn:E2; [|discriminate].
  cbn [Py.bind] in H.
  destruct (getitem r0 (PStr "Data")) as [d|] eqn:E3; [|discriminate].
  cbn [Py.bind] in H.
  destruct (getitem d (PInt 0)) as [d0|] eqn:E4; [|discriminate].
  cbn [Py.bind] in H.
  destruct (getitem d0 (PStr "Label")) as [l|] eqn:E5; [|discriminate].
  cbn [Py.bind] in H.
  destruct (py_int l) as [z|] eqn:E6; [|discriminate].
  cbn [Py.bind] in H. injection H as <-.
  apply getitem_str_key_ok in E1 as (a & -> & Ha).
  apply getitem_str_key_ok in E3 as (r0' & -> & Hr0).
  apply getitem_str_key_ok in E5 as (d0' & -> & Hd0).
  apply getitem_0_dict_ok in E2 as (rs & ->).
  apply getitem_0_dict_ok in E4 as (ds & ->).
  exists l, z. cbn. rewrite Ha, Hr0. auto.
Qed.

Lemma len_list (l : list pyval) : len (PList l) = Ok (Z.of_nat (length l)).
Proof. reflexivity. Qed.

(** With three lists of one length the constructor goes through. *)
Lemma init_lengths_agree
    (d : list (string * pyval)) (bs ks anns : list pyval)
    (decode : option (string -> result Sample))
    (transform : option (Sample -> result Sample))
    (target_transform : option (pyval -> result pyval))
    (credential : option Credential) :
  dict_get d "buckets" = Some (PList bs) ->
  dict_get d "keys" = Some (PList ks) ->
  dict_get d "annotations" = Some (PList anns) ->
  length bs = length ks -> length ks = length anns ->
  exists self : dataset,
    init (PDict d) decode transform target_transform credential = Ok self
    /\ buckets self = PList bs /\ keys self = PList ks
    /\ annotations self = PList anns
    /\ __len__ self = Ok (Z.of_nat (length bs)).
Proof.
  intros Hb Hk Ha E1 E2. unfold __init__. cbn [getitem].
  rewrite Hb, Hk, Ha. cbn [Py.bind is_not_none andb assert].
  rewrite !len_list. cbn [Py.bind].
  rewrite E1, E2, !Z.eqb_refl. cbn [Py.bind assert].
  eexists. split; [reflexivity|]. cbn.
  repeat split; congruence.
Qed.

(** C4. Built from three sequences, the dataset is refused with an
    assertion failure as soon as two of the lengths differ, and
    otherwise records the three sequences as they are. *)
Theorem init_checks_lengths
    (d : list (string * pyval)) (bs ks anns : list pyval)
    (decode : option (string -> result Sample))
    (transform : option (Sample -> result Sample))
    (target_transform : option (pyval -> result pyval))
    (credential : option Credential) :
  dict_get d "buckets" = Some (PList bs) ->
  dict_get d "keys" = Some (PList ks) ->
  dict_get d "annotations" = Some (PList anns) ->
  ((length bs <> length ks \/ length bs <> length anns
    \/ length ks <> length anns) ->
   init (PDict d) decode transform target_transform credential
   = Raise AssertionError)
  /\ (length bs = length ks -> length ks = length anns ->
      exists self : dataset,
        init (PDict d) decode transform target_transform credential
        = Ok self
        /\ buckets self = PList bs /\ keys self = PList ks
        /\ annotations self = PList anns
        /\ __len__ self = Ok (Z.of_nat (length bs))).
Proof.
  intros Hb Hk Ha. split; [|by apply init_lengths_agree].
  unfold __init__. cbn [getitem].
  rewrite Hb, Hk, Ha. cbn [Py.bind is_not_none andb assert].
  rewrite !len_list. cbn [Py.bind].
  intros Hne.
  destruct (Z.eqb_spec (Z.of_nat (length bs)) (Z.of_nat (length ks)))
    as [E1|E1]; cbn [Py.bind]; [|reflexivity].
  destruct (Z.eqb_spec (Z.of_nat (length bs)) (Z.of_nat (length anns)))
    as [E2|E2]; cbn [Py.bind assert]; [|reflexivity].
  lia.
Qed.

(** C10. Without a [manifest_info] the constructor raises: [None] is
    subscripted for its ["buckets"] entry. *)
Theorem init_without_manifest_info_raises
    (decode : option (string -> result Sample))
    (transform : option (Sample -> result Sample))
    (target_transform : option (pyval -> result pyval))
    (credential : option Credential) :
  init PNone decode transform target_transform credential
  = Raise TypeError.
Proof. reflexivity. Qed.

(** C8. Once the record is found, fetched, decoded and transformed,
    the label is the integer coercion of the ["Label"] field of the
    first ["Data"] entry of the first ["Result"] entry when there is no
    target-transform hook (and the call raises when the annotation has
    no such field); with a hook it is the hook applied to the
    annotation, whatever the class's own extractor is. *)
Theorem getitem_label
    (self : dataset) (index bucket key annotation : pyval)
    (raw : string) (decoded data : Sample) :
  getitem (buckets self) index = Ok bucket ->
  getitem (keys self) index = Ok key ->
  getitem (annotations self) index = Ok annotation ->
  get_object (match tos_client self with
              | Some c => c
              | None => TOSClient (credential self)
              end) bucket key = Ok raw ->
  match decode self with
  | Some f => f raw
  | None => base_decode pil_decode raw
  end = Ok decoded ->
  match transform self with
  | Some f => f decoded
  | None => Ok decoded
  end = Ok data ->
  (target_transform self = None ->
   (forall v, spec_label_field annotation = Some v ->
      fst (get_item (base_methods pil_decode py_int) self index)
      = (z <- py_int v;; Ok (data, PInt z))%py)
   /\ (spec_label_field annotation = None ->
       is_ok (fst (get_item (base_methods pil_decode py_int) self index))
       = false))
  /\ (forall hook, target_transform self = Some hook ->
      forall extractor : pyval -> result pyval,
        fst (get_item {| _decode := base_decode pil_decode;
                         _target_transform := extractor |} self index)
        = (label <- hook annotation;; Ok (data, label))%py).
Proof.
  intros Hb Hk Ha Hget Hdec Htr.
  unfold __getitem__. cbn [fst _decode _target_transform base_methods].
  rewrite Hb, Hk, Ha. cbn [Py.bind]. rewrite Hget. cbn [Py.bind].
  rewrite Hdec. cbn [Py.bind]. rewrite Htr. cbn [Py.bind].
  split.
  - intros ->. split.
    + intros v Hv. rewrite (base_target_transform_path _ _ Hv).
      destruct (py_int v); reflexivity.
    + intros Hnone.
      destruct (base_tt annotation) as [label|] eqn:E; [|reflexivity].
      apply base_target_transform_ok in E as (v & z & Hv & _).
      congruence.
  - intros hook -> extractor. reflexivity.
Qed.

(** *** Further properties of [TorchTOSDataset] *)

Lemma seq_index_out_of_range {A} (l : list A) (i : Z) :
  i < - Z.of_nat (length l) \/ Z.of_nat (length l) <= i ->
  seq_index l i = Raise IndexError.
Proof.
  intros Hi. unfold seq_index.
  destruct (Z.ltb_spec i 0).
  - destruct (Z.leb_spec 0 (i + Z.of_nat (length l))); [lia|reflexivity].
  - destruct (Z.leb_spec 0 i); [|reflexivity].
    destruct (Z.ltb_spec i (Z.of_nat (length l))); [lia|reflexivity].
Qed.

Lemma seq_index_negative {A} (l : list A) (n i : Z) :
  n = Z.of_nat (length l) -> 0 <= i < n ->
  seq_index l (i - n) = seq_index l i.
Proof.
  intros -> Hi. unfold seq_index.
  destruct (Z.ltb_spec (i - Z.of_nat (length l)) 0); [|lia].
  destruct (Z.ltb_spec i 0); [lia|].
  by replace (i - Z.of_nat (length l) + Z.of_nat (length l)) with i by lia.
Qed.

(** X4. An index outside [-n .. n-1] raises [IndexError] before anything is
    fetched: the result is the same for every object store and every
    hook. *)
Theorem getitem_index_out_of_range (M : Methods Sample) (self : dataset)
    (bs : list pyval) (i : Z) :
  buckets self = PList bs ->
  i < - Z.of_nat (length bs) \/ Z.of_nat (length bs) <= i ->
  fst (get_item M self (PInt i)) = Raise IndexError.
Proof.
  intros Hb Hi. unfold __getitem__. cbn [fst]. rewrite Hb. cbn [getitem].
  by rewrite seq_index_out_of_range.
Qed.

(** X5. A negative index counts from the end: on a dataset of [n] records,
    [i - n] denotes the same record as [i]. *)
Theorem getitem_negative_index (M : Methods Sample) (self : dataset)
    (bs ks anns : list pyval) (i : Z) :
  buckets self = PList bs -> keys self = PList ks ->
  annotations self = PList anns ->
  length bs = length ks -> length ks = length anns ->
  0 <= i < Z.of_nat (length bs) ->
  get_item M self (PInt (i - Z.of_nat (length bs)))
  = get_item M self (PInt i).
Proof.
  intros Hb Hk Ha E1 E2 Hi. unfold __getitem__. rewrite Hb, Hk, Ha.
  cbn [getitem].
  rewrite (seq_index_negative bs _ i eq_refl Hi).
  rewrite (seq_index_negative ks _ i) by lia.
  rewrite (seq_index_negative anns _ i) by lia.
  reflexivity.
Qed.

(** X6. A failure of the object store is passed on as it is: neither the
    decoder nor any hook changes it. *)
Theorem getitem_fetch_error (M : Methods Sample) (self : dataset)
    (index bucket key annotation : pyval) (e : exn) :
  getitem (buckets self) index = Ok bucket ->
  getitem (keys self) index = Ok key ->
  getitem (annotations self) index = Ok annotation ->
  get_object (match tos_client self with
              | Some c => c
              | None => TOSClient (credential self)
              end) bucket key = Raise e ->
  fst (get_item M self index) = Raise e.
Proof.
  intros Hb Hk Ha Hget. unfold __getitem__. cbn [fst].
  rewrite Hb, Hk, Ha. cbn [Py.bind]. by rewrite Hget.
Qed.

(** X7. With the three hooks supplied the sample is the transform of the
    decoded bytes and the label is the target transform of the
    annotation, run in this order; the class's own decoder and extractor
    play no part. *)
Theorem getitem_with_hooks (M : Methods Sample) (self : dataset)
    (index bucket key annotation : pyval) (raw : string)
    (d : string -> result Sample) (t : Sample -> result Sample)
    (h : pyval -> result pyval) :
  getitem (buckets self) index = Ok bucket ->
  getitem (keys self) index = Ok key ->
  getitem (annotations self) index = Ok annotation ->
  get_object (match tos_client self with
              | Some c => c
              | None => TOSClient (credential self)
              end) bucket key = Ok raw ->
  decode self = Some d -> transform self = Some t ->
  target_transform self = Some h ->
  fst (get_item M self index)
  = (x <- d raw;; y <- t x;; label <- h annotation;; Ok (y, label))%py.
Proof.
  intros Hb Hk Ha Hget Hd Ht Hh. unfold __getitem__. cbn [fst].
  rewrite Hb, Hk, Ha. cbn [Py.bind]. rewrite Hget. cbn [Py.bind].
  by rewrite Hd, Ht, Hh.
Qed.

(** X1. A [manifest_info] that lacks one of the three entries is refused
    with [KeyError]. *)
Theorem init_missing_key (d : list (string * pyval))
    (decode : option (string -> result Sample))
    (transform : option (Sample -> result Sample))
    (target_transform : option (pyval -> result pyval))
    (credential : option Credential) :
  dict_get d "buckets" = None \/ dict_get d "keys" = None
  \/ dict_get d "annotations" = None ->
  init (PDict d) decode transform target_transform credential
  = Raise KeyError.
Proof.
  intros H. unfold __init__. cbn [getitem].
  destruct (dict_get d "buckets"); [|reflexivity]. cbn [Py.bind].
  destruct (dict_get d "keys"); [|reflexivity]. cbn [Py.bind].
  destruct (dict_get d "annotations"); [|reflexivity].
  destruct H as [H|[H|H]]; discriminate H.
Qed.

(** X2. An entry that is [None] fails the first assertion, whatever the
    other two entries are. *)
Theorem init_none_entry (d : list (string * pyval)) (b k a : pyval)
    (decode : option (string -> result Sample))
    (transform : option (Sample -> result Sample))
    (target_transform : option (pyval -> result pyval))
    (credential : option Credential) :
  dict_get d "buckets" = Some b -> dict_get d "keys" = Some k ->
  dict_get d "annotations" = Some a ->
  b = PNone \/ k = PNone \/ a = PNone ->
  init (PDict d) decode transform target_transform credential
  = Raise AssertionError.
Proof.
  intros Hb Hk Ha H. unfold __init__. cbn [getitem].
  rewrite Hb, Hk, Ha. cbn [Py.bind].
  destruct H as [-> | [-> | ->]]; cbn [is_not_none andb assert Py.bind];
    [reflexivity| |].
  - destruct (is_not_none b); reflexivity.
  - destruct (is_not_none b), (is_not_none k); reflexivity.
Qed.

(** X3. The length of the annotations is only asked for when buckets and
    keys agree in length: with two lists of different lengths the
    constructor fails the assertion even for an annotations value that
    has no length, while with two lists of one length such a value
    raises [TypeError]. *)
Theorem init_short_circuit (d : list (string * pyval))
    (bs ks : list pyval) (z : Z)
    (decode : option (string -> result Sample))
    (transform : option (Sample -> result Sample))
    (target_transform : option (pyval -> result pyval))
    (credential : option Credential) :
  dict_get d "buckets" = Some (PList bs) ->
  dict_get d "keys" = Some (PList ks) ->
  dict_get d "annotations" = Some (PInt z) ->
  init (PDict d) decode transform target_transform credential
  = if decide (length bs = length ks) then Raise TypeError
    else Raise AssertionError.
Proof.
  intros Hb Hk Ha. unfold __init__. cbn [getitem].
  rewrite Hb, Hk, Ha. cbn [Py.bind is_not_none andb assert len].
  destruct (decide (length bs = length ks)) as [E|E].
  - rewrite E, Z.eqb_refl. reflexivity.
  - destruct (Z.eqb_spec (Z.of_nat (length bs)) (Z.of_nat (length ks)));
      [lia|reflexivity].
Qed.

End Facts.

Lemma init_checks_lengths_witness :
  let init := @__init__ unit unit string tt (PDict sample_info)
                None None None None in
  ((length sample_buckets <> length sample_keys
    \/ length sample_buckets <> length sample_annotations
    \/ length sample_keys <> length sample_annotations) ->
   init = Raise AssertionError)
  /\ (length sample_buckets = length sample_keys ->
      length sample_keys = length sample_annotations ->
      exists self,
        init = Ok self
        /\ buckets self = PList sample_buckets
        /\ keys self = PList sample_keys
        /\ annotations self = PList sample_annotations
        /\ __len__ self = Ok (Z.of_nat (length sample_buckets))).
Proof.
  exact (init_checks_lengths (Client := unit) (Sample := string) tt
           sample_info sample_buckets sample_keys sample_annotations
           None None None None eq_refl eq_refl eq_refl).
Defined.

Lemma getitem_label_witness :
  let get_item M :=
    @__getitem__ unit unit string (fun _ => tt)
      (fun _ _ _ => Ok "raw") M sample_dataset (PInt 0) in
  (target_transform sample_dataset = None ->
   (forall v, spec_label_field sample_annotation = Some v ->
      fst (get_item (base_methods Ok Ref.py_int))
      = (z <- Ref.py_int v;; Ok ("raw", PInt z))%py)
   /\ (spec_label_field sample_annotation = None ->
       is_ok (fst (get_item (base_methods Ok Ref.py_int))) = false))
  /\ (forall hook, target_transform sample_dataset = Some hook ->
      forall extractor : pyval -> result pyval,
        fst (get_item {| _decode := base_decode Ok;
                         _target_transform := extractor |})
        = (label <- hook sample_annotation;; Ok ("raw", label))%py).
Proof.
  exact (getitem_label (fun _ => tt) (fun _ _ _ => Ok "raw") Ok Ref.py_int
           sample_dataset (PInt 0) (PStr "my-bucket") (PStr "cat.jpg")
           sample_annotation "raw" "raw" "raw"
           eq_refl eq_refl eq_refl eq_refl eq_refl eq_refl).
Defined.

End TosFilesIOFacts.

(** ** [str.split] and the URL of a record *)

Module UrlFacts.

Import Py Datasets.

Local Open Scope string_scope.

Lemma sapp_cons (x : ascii) (a b : string) :
  String x a ++ b = String x (a ++ b).
Proof. reflexivity. Qed.

Lemma sapp_assoc (a b c : string) : (a ++ b) ++ c = a ++ (b ++ c).
Proof.
  induction a as [|x a IH]; [done|]. rewrite !sapp_cons. by f_equal.
Qed.

Lemma sapp_nil_r (a : string) : a ++ "" = a.
Proof. induction a as [|x a IH]; [done|]. rewrite sapp_cons. by f_equal. Qed.

Lemma slength_app (a b : string) :
  String.length (a ++ b) = (String.length a + String.length b)%nat.
Proof.
  induction a as [|x a IH]; [done|]. rewrite sapp_cons. cbn [String.length].
  by rewrite IH.
Qed.

Lemma prefix_nil (s : string) : String.prefix "" s = true.
Proof. by destruct s. Qed.

Lemma prefix_cons (x y : ascii) (s t : string) :
  String.prefix (String x s) (String y t)
  = if decide (x = y) then String.prefix s t else false.
Proof.
  cbn [String.prefix]. destruct (ascii_dec x y), (decide (x = y)); done.
Qed.

Lemma prefix_app (s t : string) : String.prefix s (s ++ t) = true.
Proof.
  induction s as [|x s IH]; [apply prefix_nil|].
  rewrite sapp_cons, prefix_cons. by destruct (decide (x = x)).
Qed.

(** Whether [s] is a prefix only depends on as many characters as [s]
    has. *)
Lemma prefix_app_short (s u v : string) :
  (String.length s <= String.length u)%nat ->
  String.prefix s (u ++ v) = String.prefix s u.
Proof.
  revert u. induction s as [|x s IH]; intros u Hlen.
  - by rewrite !prefix_nil.
  - destruct u as [|y u]; [cbn in Hlen; lia|].
    rewrite sapp_cons, !prefix_cons.
    destruct (decide (x = y)); [|done]. apply IH. cbn in Hlen. lia.
Qed.

Lemma contains_cons_false (sub : string) (x : ascii) (s : string) :
  str_contains sub (String x s) = false ->
  String.prefix sub (String x s) = false /\ str_contains sub s = false.
Proof. cbn [str_contains]. by intros ?%orb_false_iff. Qed.

Lemma contains_char_cons (c x : ascii) (s : string) :
  str_contains (String c "") (String x s) = false ->
  c <> x /\ str_contains (String c "") s = false.
Proof.
  intros [Hp Hs]%contains_cons_false. split; [|done].
  rewrite prefix_cons, prefix_nil in Hp. by destruct (decide (c = x)).
Qed.

(** *** The scan *)

(** Characters that cannot start the separator are added to the
    current piece. *)
Lemma split_go_pass (c0 : ascii) (sep' a t cur : string) :
  str_contains (String c0 "") a = false ->
  split_go (String c0 sep') 0 cur (a ++ t)
  = split_go (String c0 sep') 0 (cur ++ a) t.
Proof.
  revert cur. induction a as [|x a IH]; intros cur Ha.
  - by rewrite sapp_nil_r.
  - apply contains_char_cons in Ha as [Hx Ha].
    rewrite sapp_cons. cbn [split_go]. rewrite prefix_cons.
    destruct (decide (c0 = x)); [done|].
    rewrite IH by done. by rewrite sapp_assoc.
Qed.

(** The characters of a matched separator are passed over. *)
Lemma split_go_skip (sep a t cur : string) :
  split_go sep (String.length a) cur (a ++ t) = split_go sep 0 cur t.
Proof. induction a as [|x a IH]; [done|]. exact IH. Qed.

Lemma split_go_match (sep t cur : string) :
  sep <> "" ->
  split_go sep 0 cur (sep ++ t) = cur :: split_go sep 0 "" t.
Proof.
  destruct sep as [|c sep']; [done|]. intros _.
  rewrite sapp_cons. cbn [split_go]. rewrite <- sapp_cons.
  rewrite prefix_app. cbn [String.length].
  replace (S (String.length sep') - 1)%nat with (String.length sep') by lia.
  by rewrite split_go_skip.
Qed.

(** A string in which the separator does not occur is one piece. *)
Lemma split_go_absent (sep s cur : string) :
  str_contains sep s = false -> split_go sep 0 cur s = [cur ++ s].
Proof.
  revert cur. induction s as [|x s IH]; intros cur Hs.
  - by rewrite sapp_nil_r.
  - apply contains_cons_false in Hs as [Hp Hs].
    cbn [split_go]. rewrite Hp, IH by done. by rewrite sapp_assoc.
Qed.

(** The first piece is the text before the first occurrence of the
    separator: no occurrence starts in [k1] when [sep] does not occur in
    [k1] followed by all but the last character of [sep]. *)
Lemma split_go_first (sep body k1 k2 cur : string) (last : ascii) :
  sep = body ++ String last "" ->
  str_contains sep (k1 ++ body) = false ->
  split_go sep 0 cur (k1 ++ sep ++ k2)
  = (cur ++ k1) :: split_go sep 0 "" k2.
Proof.
  intros Hsep. revert cur. induction k1 as [|x k1 IH]; intros cur Hk.
  - rewrite sapp_nil_r. change ("" ++ sep ++ k2) with (sep ++ k2).
    apply split_go_match. rewrite Hsep. by destruct body.
  - rewrite sapp_cons in Hk. apply contains_cons_false in Hk as [Hp Hk].
    rewrite sapp_cons. cbn [split_go].
    assert (String.prefix sep (String x (k1 ++ sep ++ k2)) = false) as ->.
    { rewrite <- Hp.
      replace (String x (k1 ++ sep ++ k2))
        with (String x (k1 ++ body) ++ (String last "" ++ k2))
        by (by rewrite Hsep, sapp_cons, !sapp_assoc).
      apply prefix_app_short.
      rewrite Hsep. cbn [String.length].
      rewrite !slength_app. cbn [String.length]. lia. }
    rewrite IH by done. by rewrite sapp_assoc.
Qed.

Lemma split_go_head (sep s cur : string) :
  exists a tl, split_go sep 0 cur s = (cur ++ a) :: tl.
Proof.
  revert cur. induction s as [|x s IH]; intros cur.
  - exists "", []. by rewrite sapp_nil_r.
  - cbn [split_go]. destruct (String.prefix sep (String x s)).
    + exists "". eexists. by rewrite sapp_nil_r.
    + destruct (IH (cur ++ String x "")) as (a & tl & ->).
      exists (String x a), tl. by rewrite sapp_assoc.
Qed.

Lemma seq_index_1_cons {A} (x y : A) (tl : list A) :
  seq_index (x :: y :: tl) 1 = Ok y.
Proof.
  unfold seq_index. cbn [length]. rewrite !Nat2Z.inj_succ.
  change (1 <? 0)%Z with false. cbv iota.
  destruct (Z.ltb_spec 1 (Z.succ (Z.succ (Z.of_nat (List.length tl)))));
    [done|lia].
Qed.

(** *** The three splits of a URL *)

(** A name that ends in ["/"] does not start inside a scheme followed by
    [":"]. *)
Lemma prefix_name_scheme (x y z : string) :
  str_contains "/" y = false ->
  str_contains "/" x = false ->
  str_contains ":" x = false ->
  String.prefix (x ++ "/") (y ++ ":" ++ z) = false.
Proof.
  revert y. induction x as [|a x IH]; intros y Hy Hx1 Hx2.
  - destruct y as [|c y]; [done|].
    apply contains_char_cons in Hy as [Hc _].
    change ("" ++ "/") with "/". rewrite sapp_cons, prefix_cons.
    by destruct (decide (_ = c)).
  - apply contains_char_cons in Hx1 as [Ha1 Hx1].
    apply contains_char_cons in Hx2 as [Ha2 Hx2].
    destruct y as [|c y].
    + change ("" ++ ":" ++ z) with (String ":" z).
      rewrite sapp_cons, prefix_cons.
      destruct (decide (a = ":"%char)); [by subst|done].
    + apply contains_char_cons in Hy as [_ Hy].
      rewrite !sapp_cons, prefix_cons.
      destruct (decide (a = c)); [|done]. by apply IH.
Qed.

(** The split at [bucket ++ "/"] passes over the scheme and ["://"]. *)
Lemma split_go_scheme (scheme bucket t cur : string) :
  str_contains "/" scheme = false ->
  bucket <> "" ->
  str_contains "/" bucket = false ->
  str_contains ":" bucket = false ->
  split_go (bucket ++ "/") 0 cur (scheme ++ "://" ++ t)
  = split_go (bucket ++ "/") 0 (cur ++ scheme ++ "://") t.
Proof.
  intros Hs Hne Hb1 Hb2. revert cur Hs.
  induction scheme as [|c scheme IH]; intros cur Hs.
  - destruct bucket as [|b0 bucket]; [done|].
    apply contains_char_cons in Hb1 as [H1 _].
    apply contains_char_cons in Hb2 as [H2 _].
    change ("" ++ "://" ++ t) with (String ":" (String "/" (String "/" t))).
    rewrite sapp_cons. cbn [split_go]. rewrite !prefix_cons.
    destruct (decide (b0 = ":"%char)); [by subst|].
    destruct (decide (b0 = "/"%char)); [by subst|].
    by rewrite !sapp_assoc.
  - pose proof (prefix_name_scheme bucket (String c scheme) ("//" ++ t)
                  Hs Hb1 Hb2) as Hp.
    apply contains_char_cons in Hs as [_ Hs].
    rewrite sapp_cons. cbn [split_go].
    change (String c scheme ++ ":" ++ "//" ++ t)
      with (String c (scheme ++ "://" ++ t)) in Hp.
    rewrite Hp, IH by done. by rewrite !sapp_assoc.
Qed.

(** No ["//"] starts before the one that follows the scheme. *)
Lemma scheme_no_double_slash (scheme : string) :
  str_contains "/" scheme = false ->
  str_contains "//" ((scheme ++ ":") ++ "/") = false.
Proof.
  intros Hs. induction scheme as [|c scheme IH]; [done|].
  pose proof Hs as [Hc Hs']%contains_char_cons.
  rewrite !sapp_cons. cbn [str_contains]. rewrite (IH Hs'), orb_false_r.
  rewrite prefix_cons. by destruct (decide (_ = c)).
Qed.

(** [url.split("//")[1].split("/")[0]] of [scheme://bucket/key]. *)
Lemma bucket_of_url (scheme bucket key : string) :
  str_contains "/" scheme = false ->
  str_contains "/" bucket = false ->
  exists rest tl tl',
    split_go "//" 0 "" (scheme ++ "://" ++ bucket ++ "/" ++ key)
    = (scheme ++ ":") :: rest :: tl
    /\ split_go "/" 0 "" rest = bucket :: tl'.
Proof.
  intros Hs Hb.
  pose proof (scheme_no_double_slash scheme Hs) as Hk.
  replace (scheme ++ "://" ++ bucket ++ "/" ++ key)
    with ((scheme ++ ":") ++ "//" ++ (bucket ++ "/" ++ key))
    by (by rewrite !sapp_assoc).
  rewrite (split_go_first "//" "/" _ _ _ "/"%char eq_refl Hk).
  change ("" ++ scheme ++ ":") with (scheme ++ ":").
  rewrite (split_go_pass "/" "/" bucket _ "" Hb).
  change ("" ++ bucket) with bucket.
  assert (exists a tl,
             split_go "//" 0 bucket ("/" ++ key) = (bucket ++ a) :: tl
             /\ (a = "" \/ exists a', a = "/" ++ a')) as (a & tl & -> & Ha).
  { change ("/" ++ key) with (String "/" key). cbn [split_go].
    destruct (String.prefix "//" (String "/" key)).
    - exists "". eexists. rewrite sapp_nil_r. by split; [|left].
    - destruct (split_go_head "//" key (bucket ++ "/")) as (a' & tl & ->).
      exists ("/" ++ a'), tl. rewrite sapp_assoc. split; [done|].
      right. by exists a'. }
  exists (bucket ++ a), tl.
  destruct Ha as [->|[a' ->]].
  - exists []. split; [done|].
    by rewrite sapp_nil_r, (split_go_absent "/" bucket "" Hb).
  - eexists. split; [done|].
    rewrite (split_go_first "/" "" bucket a' "" "/"%char eq_refl); [done|].
    by rewrite sapp_nil_r.
Qed.

(** The common part of the parse: the bucket is found, and the key is
    the second piece of the URL split at the bucket and a slash, which
    starts right after the first [bucket/]. *)
Lemma parse_url_pieces (scheme bucket key : string) :
  str_contains "/" scheme = false ->
  bucket <> "" ->
  str_contains "/" bucket = false ->
  str_contains ":" bucket = false ->
  parse_url (scheme ++ "://" ++ bucket ++ "/" ++ key)
  = (key' <- seq_index ((scheme ++ "://")
                          :: split_go (bucket ++ "/") 0 "" key) 1;;
     Ok (bucket, key'))%py.
Proof.
  intros Hs Hne Hb1 Hb2.
  destruct (bucket_of_url scheme bucket key Hs Hb1)
    as (rest & tl & tl' & H1 & H2).
  unfold parse_url. cbn [str_split Py.bind]. rewrite H1, seq_index_1_cons.
  cbn [str_split Py.bind]. rewrite H2, PyFacts.seq_index_0_cons. cbn [Py.bind].
  assert (str_split (scheme ++ "://" ++ bucket ++ "/" ++ key) (bucket ++ "/")
          = Ok (split_go (bucket ++ "/") 0 ""
                  (scheme ++ "://" ++ bucket ++ "/" ++ key))) as ->.
  { destruct bucket; [done|]. by rewrite sapp_cons. }
  cbn [Py.bind].
  rewrite (split_go_scheme scheme bucket _ "" Hs Hne Hb1 Hb2).
  change ("" ++ scheme ++ "://") with (scheme ++ "://").
  rewrite <- (sapp_assoc bucket "/" key).
  rewrite split_go_match; [done|]. by destruct bucket.
Qed.

(** X14. Every URL [scheme://bucket/key] whose key does not contain the
    bucket name followed by a slash is parsed into its bucket and its
    key. *)
Theorem parse_url_correct (scheme bucket key : string) :
  str_contains "/" scheme = false ->
  bucket <> "" ->
  str_contains "/" bucket = false ->
  str_contains ":" bucket = false ->
  str_contains (bucket ++ "/") key = false ->
  parse_url (scheme ++ "://" ++ bucket ++ "/" ++ key) = Ok (bucket, key).
Proof.
  intros Hs Hne Hb1 Hb2 Hk. rewrite parse_url_pieces by done.
  rewrite (split_go_absent _ key "" Hk). by rewrite seq_index_1_cons.
Qed.

(** X15. When the bucket name followed by a slash occurs in the key, the key
    is cut before its first occurrence: the rest of the object's key is
    lost. *)
Theorem parse_url_truncates (scheme bucket k1 k2 : string) :
  str_contains "/" scheme = false ->
  bucket <> "" ->
  str_contains "/" bucket = false ->
  str_contains ":" bucket = false ->
  str_contains (bucket ++ "/") (k1 ++ bucket) = false ->
  parse_url (scheme ++ "://" ++ bucket ++ "/" ++ k1 ++ (bucket ++ "/") ++ k2)
  = Ok (bucket, k1).
Proof.
  intros Hs Hne Hb1 Hb2 Hk. rewrite parse_url_pieces by done.
  rewrite (split_go_first (bucket ++ "/") bucket k1 k2 "" "/"%char eq_refl Hk).
  by rewrite seq_index_1_cons.
Qed.

(** X16. A URL without ["//"] has no second piece: [IndexError]. *)
Theorem parse_url_without_double_slash (url : string) :
  str_contains "//" url = false ->
  parse_url url = Raise IndexError.
Proof.
  intros H. unfold parse_url. cbn [str_split Py.bind].
  by rewrite (split_go_absent "//" url "" H).
Qed.

Lemma prefix_absent_char (x s : string) (c : ascii) :
  str_contains (String c "") s = false ->
  String.prefix (x ++ String c "") s = false.
Proof.
  revert s. induction x as [|a x IH]; intros s Hs.
  - destruct s as [|b s]; [done|].
    apply contains_char_cons in Hs as [Hc _].
    change ("" ++ String c "") with (String c "").
    rewrite prefix_cons. by destruct (decide (c = b)).
  - destruct s as [|b s]; [done|].
    apply contains_char_cons in Hs as [_ Hs].
    rewrite sapp_cons, prefix_cons.
    destruct (decide (a = b)); [|done]. by apply IH.
Qed.

Lemma contains_absent_char (x s : string) (c : ascii) :
  str_contains (String c "") s = false ->
  str_contains (x ++ String c "") s = false.
Proof.
  induction s as [|b s IH]; intros Hs.
  - cbn [str_contains]. by apply prefix_absent_char.
  - cbn [str_contains]. rewrite (prefix_absent_char x _ c Hs).
    apply contains_char_cons in Hs as [_ Hs]. by rewrite IH.
Qed.

(** X17. A URL that stops after the bucket, with no slash and key, has no
    second piece at the last split: [IndexError]. *)
Theorem parse_url_without_key (scheme bucket : string) :
  str_contains "/" scheme = false ->
  bucket <> "" ->
  str_contains "/" bucket = false ->
  str_contains ":" bucket = false ->
  parse_url (scheme ++ "://" ++ bucket) = Raise IndexError.
Proof.
  intros Hs Hne Hb1 Hb2.
  pose proof (scheme_no_double_slash scheme Hs) as Hk.
  unfold parse_url. cbn [str_split Py.bind].
  replace (scheme ++ "://" ++ bucket)
    with ((scheme ++ ":") ++ "//" ++ bucket) at 1
    by (by rewrite !sapp_assoc).
  rewrite (split_go_first "//" "/" _ _ _ "/"%char eq_refl Hk).
  rewrite (split_go_absent "//" bucket ""
             (contains_absent_char "/" bucket "/" Hb1)).
  change ("" ++ bucket) with bucket.
  rewrite seq_index_1_cons. cbn [str_split Py.bind].
  rewrite (split_go_absent "/" bucket "" Hb1).
  change ("" ++ bucket) with bucket.
  rewrite PyFacts.seq_index_0_cons. cbn [Py.bind].
  assert (str_split (scheme ++ "://" ++ bucket) (bucket ++ "/")
          = Ok (split_go (bucket ++ "/") 0 "" (scheme ++ "://" ++ bucket)))
    as ->.
  { destruct bucket; [done|]. by rewrite sapp_cons. }
  cbn [Py.bind].
  rewrite (split_go_scheme scheme bucket _ "" Hs Hne Hb1 Hb2).
  by rewrite (split_go_absent _ bucket _
                (contains_absent_char bucket bucket "/" Hb1)).
Qed.

(** X18. A record whose [Data.ImageURL] is [scheme://bucket/key], with a key
    in which the bucket name followed by a slash does not occur again,
    gives that bucket, that key and the record's annotation. *)
Theorem parse_manifest_line_record
    (json_loads : string -> option pyval) (line : string)
    (d dd : list (string * pyval)) (scheme bucket key : string)
    (annotation : pyval) :
  json_loads line = Some (PDict d) ->
  dict_get d "Data" = Some (PDict dd) ->
  dict_get dd "ImageURL"
  = Some (PStr (scheme ++ "://" ++ bucket ++ "/" ++ key)) ->
  dict_get d "Annotation" = Some annotation ->
  str_contains "/" scheme = false ->
  bucket <> "" ->
  str_contains "/" bucket = false ->
  str_contains ":" bucket = false ->
  str_contains (bucket ++ "/") key = false ->
  parse_manifest_line json_loads line
  = Ok (PStr bucket, PStr key, annotation).
Proof.
  intros Hline Hd Hu Ha Hs Hne Hb1 Hb2 Hk.
  unfold parse_manifest_line. rewrite Hline. cbn [Py.bind getitem].
  rewrite Hd. cbn [Py.bind getitem]. rewrite Hu. cbn [Py.bind as_str].
  rewrite (parse_url_pieces scheme bucket key Hs Hne Hb1 Hb2).
  rewrite (split_go_absent _ key "" Hk), seq_index_1_cons.
  cbn [Py.bind getitem]. by rewrite Ha.
Qed.

End UrlFacts.

(** ** Manifest parsing *)

Module ManifestFacts.

Import Datasets TosFilesIO.

(** C5. The URL of the specification parses to its bucket and key; a URL
    whose key contains the bucket name followed by a slash again loses
    everything from that second occurrence on, because the key is the
    second piece of an unbounded [split]. *)
Theorem parse_url_repeated_bucket :
  parse_url "tos://my-bucket/path/to/img.jpg"
  = Ok ("my-bucket", "path/to/img.jpg")
  /\ parse_url "tos://data/images/data/cat.jpg" = Ok ("data", "images/").
Proof. split; reflexivity. Qed.

Section Parsing.

Variable json_loads : string -> option pyval.
Context {rng_state Payload : Type}.
Variable realpath : string -> string.

Abbreviation parse_line := (parse_manifest_line json_loads).
Abbreviation world := (Datasets.world rng_state Payload).




Lemma parse_lines_first_error (good rest : list string) (bad : string)
    (e : exn) :
  Forall (fun line => is_ok (parse_line line) = true) good ->
  parse_line bad = Raise e ->
  forall bs ks anns,
    parse_lines json_loads (good ++ bad :: rest) bs ks anns = Raise e.
Proof.
  intros Hgood Hbad. induction Hgood as [|line good Hl _ IH];
    intros bs ks anns.
  - cbn [app parse_lines]. by rewrite Hbad.
  - cbn [app parse_lines].
    destruct (parse_line line) as [r|]; [|discriminate]. cbn [Py.bind].
    apply IH.
Qed.

(** X19. The first line that does not parse decides the call: its exception
    is raised, whatever follows it, and nothing of the lists built from
    the lines before it is returned. *)
Theorem parse_image_manifest_first_error
    (w : world) (path : string) (good rest : list string) (bad : string)
    (e : exn) :
  files w !! realpath path = Some (good ++ bad :: rest) ->
  Forall (fun line => is_ok (parse_line line) = true) good ->
  parse_line bad = Raise e ->
  parse_image_manifest json_loads rng_state Payload realpath path w
  = (Raise e, w).
Proof.
  intros Hfile Hgood Hbad.
  unfold parse_image_manifest, SE.bind, read_lines, SE.lift.
  rewrite Hfile.
  by rewrite (parse_lines_first_error good rest bad e Hgood Hbad [] [] []).
Qed.

End Parsing.

End ManifestFacts.

(** ** binary64 arithmetic *)

Module Float64Facts.

Import Float64.




























(** *** Conversions never give a NaN *)







End Float64Facts.

(** ** [split] *)

Module SplitFacts.

Import Datasets.

(** *** Text written and read back *)




Section Facts.

Variable json_loads : string -> option pyval.
Variable json_dumps : pyval -> string.
Variable rng_state : Type.
Variable np_random_seed : Z -> rng_state.
Variable permutation_prefix : rng_state -> Z -> Z -> list Z * rng_state.
Variable Payload : Type.
Variable dataset_copy_file :
  pyval -> string -> string -> Payload -> option Payload.
Variable realpath : string -> string.

Abbreviation world := (Datasets.world rng_state Payload).
Abbreviation draw :=
  (draw_test_index_set rng_state np_random_seed permutation_prefix Payload).
Abbreviation loop :=
  (split_loop json_loads json_dumps Payload dataset_copy_file).
Abbreviation manifests :=
  (write_manifests json_loads json_dumps rng_state Payload
     dataset_copy_file realpath).
Abbreviation mkdirs := (makedirs rng_state Payload realpath).
Abbreviation split :=
  (Datasets.split json_loads json_dumps rng_state np_random_seed
     permutation_prefix Payload dataset_copy_file realpath).
Abbreviation one_line :=
  (fun line : string => str_contains (String newline "") line = false).

(** *** The draw *)

Lemma draw_unfold (line_count : Z) (ratio : spec_float)
    (random_state : Z) (w : world) :
  draw line_count ratio random_state w
  = if (0 <=? random_state) && (random_state <? 2 ^ 32)
    then
      match test_count line_count ratio with
      | Raise e => (Raise e, set_rng (np_random_seed random_state) w)
      | Ok k =>
          if (k <? 0) || (line_count <? k)
          then (Raise ValueError, set_rng (np_random_seed random_state) w)
          else
            (Ok (list_to_set
                   (permutation_prefix (np_random_seed random_state)
                      line_count k).1),
             set_rng (permutation_prefix (np_random_seed random_state)
                        line_count k).2 w)
      end
    else (Raise ValueError, w).
Proof.
  unfold draw_test_index_set, seed_generator, SE.bind.
  destruct ((0 <=? random_state) && (random_state <? 2 ^ 32));
    [|reflexivity].
  unfold SE.modify, SE.lift, SE.ret, np_random_choice.
  destruct (test_count line_count ratio) as [k|e]; [|reflexivity].
  cbn [rng set_rng].
  destruct ((k <? 0) || (line_count <? k)); [reflexivity|].
  destruct (permutation_prefix _ _ _) as [l r]. reflexivity.
Qed.

(** C2. The test index set only depends on the count, the ratio and
    the seed: not on the state the generator was in before the call,
    nor on anything else of the world. *)
Theorem test_index_set_deterministic
    (self1 self2 : Dataset) (ratio : spec_float) (random_state : Z)
    (w1 w2 : world) :
  data_count self1 = data_count self2 ->
  fst (draw (data_count self1) ratio random_state w1)
  = fst (draw (data_count self2) ratio random_state w2).
Proof.
  intros ->. rewrite !draw_unfold.
  destruct ((0 <=? random_state) && (random_state <? 2 ^ 32));
    [|reflexivity].
  destruct (test_count (data_count self2) ratio) as [k|e]; [|reflexivity].
  destruct ((k <? 0) || (data_count self2 <? k)); reflexivity.
Qed.

Lemma valid_seed (random_state : Z) :
  0 <= random_state < 2 ^ 32 ->
  (0 <=? random_state) && (random_state <? 2 ^ 32) = true.
Proof.
  intros H. apply andb_true_iff. split; [apply Z.leb_le|apply Z.ltb_lt]; lia.
Qed.

Lemma invalid_seed (random_state : Z) :
  ~ 0 <= random_state < 2 ^ 32 ->
  (0 <=? random_state) && (random_state <? 2 ^ 32) = false.
Proof.
  intros H. apply andb_false_iff.
  destruct (Z.leb_spec 0 random_state); [|by left].
  right. apply Z.ltb_ge. lia.
Qed.

(** *** The loop *)

Lemma loop_raises test_index_set source_dir training_dir testing_dir
    (lines : list string) :
  forall index st e st',
    loop test_index_set source_dir training_dir testing_dir lines index st
    = (Raise e, st') ->
    e = JSONDecodeError \/ e = IOError.
Proof.
  induction lines as [|line lines IH]; intros index st e st';
    cbn [split_loop]; [discriminate|].
  destruct (json_loads line) as [manifest_line|]; [|intros [= <- _]; auto].
  destruct (decide (index ∈ test_index_set));
    (destruct (dataset_copy_file _ _ _ _); [apply IH|intros [= <- _]; auto]).
Qed.




Lemma routed_ext {A} (keep keep' : Z -> bool) (records : list A) :
  forall index,
    (forall i, index <= i < index + Z.of_nat (length records) ->
               keep i = keep' i) ->
    routed keep index records = routed keep' index records.
Proof.
  induction records as [|r rest IH]; intros index Hk; [done|].
  cbn [routed length] in *. rewrite (Hk index) by lia.
  rewrite (IH (index + 1)) by (intros i Hi; apply Hk; lia). done.
Qed.







(** *** The whole method *)

Abbreviation train_path training_dir :=
  (os_path_join training_dir Constant.DATASET_LOCAL_METADATA_FILENAME).
Abbreviation test_path testing_dir :=
  (os_path_join testing_dir Constant.DATASET_LOCAL_METADATA_FILENAME).


Lemma mkdirs_raises (d : string) (w w' : world) (e : exn) :
  mkdirs d w = (Raise e, w') ->
  w' = w /\ (e = FileNotFoundError \/ e = FileExistsError).
Proof.
  unfold makedirs. destruct (String.eqb d ""); [intros [= <- <-]; auto|].
  destruct (files w !! realpath d); [intros [= <- <-]; auto|discriminate].
Qed.

Lemma mkdirs_keeps (d : string) (w : world) :
  rng (mkdirs d w).2 = rng w
  /\ files (mkdirs d w).2 = files w
  /\ payload (mkdirs d w).2 = payload w.
Proof.
  unfold makedirs. destruct (String.eqb d ""); [done|].
  by destruct (files w !! realpath d).
Qed.

Lemma split_unfold (self : Dataset) (training_dir testing_dir : string)
    (ratio : spec_float) (random_state : Z) (w : world) :
  created self = true ->
  split self training_dir testing_dir ratio random_state w
  = match draw (data_count self) ratio random_state w with
    | (Raise e, w1) => (Raise e, w1)
    | (Ok test_index_set, w1) =>
        match mkdirs testing_dir w1 with
        | (Raise e, w2) => (Raise e, w2)
        | (Ok _, w2) =>
            match mkdirs training_dir w2 with
            | (Raise e, w3) => (Raise e, w3)
            | (Ok _, w3) =>
                match test_count (data_count self) ratio with
                | Raise e => (Raise e, w3)
                | Ok k =>
                    match manifests self test_index_set training_dir
                            testing_dir (train_path training_dir)
                            (test_path testing_dir) w3
                    with
                    | (Raise e, w4) => (Raise e, w4)
                    | (Ok _, w4) =>
                        (Ok ({| local_path := training_dir;
                                data_count := data_count self - k;
                                created := true |},
                             {| local_path := testing_dir;
                                data_count := k;
                                created := true |}), w4)
                    end
                end
            end
        end
    end.
Proof.
  intros Hc. unfold Datasets.split. rewrite Hc. cbn [negb].
  unfold SE.bind at 1.
  destruct (draw _ _ _ _) as [[S|e] w1]; [|reflexivity].
  unfold SE.bind at 1.
  destruct (mkdirs testing_dir w1) as [[[]|e] w2]; [|reflexivity].
  unfold SE.bind at 1.
  destruct (mkdirs training_dir w2) as [[[]|e] w3]; [|reflexivity].
  unfold SE.bind, SE.lift, SE.ret.
  destruct (test_count _ _) as [k|e]; [|reflexivity].
  destruct (manifests _ _ _ _ _ _ _) as [[[]|e] w4]; reflexivity.
Qed.

Lemma test_count_raises (line_count : Z) (ratio : spec_float) (e : exn) :
  test_count line_count ratio = Raise e ->
  e = OverflowError \/ e = ValueError.
Proof.
  unfold test_count, Float64.of_int.
  destruct (binary_normalize _ _ _ _ _); cbn [Py.bind];
    try (intros [= <-]; auto);
    match goal with
    | |- Float64.floor ?x = _ -> _ =>
        destruct x; cbn [Float64.floor]; intros [= <-]; auto
    end.
Qed.

Lemma draw_raises line_count ratio random_state (w w' : world) e :
  draw line_count ratio random_state w = (Raise e, w') ->
  e = OverflowError \/ e = ValueError.
Proof.
  rewrite draw_unfold.
  destruct ((0 <=? random_state) && (random_state <? 2 ^ 32));
    [|intros [= <- _]; auto].
  destruct (test_count line_count ratio) as [k|e'] eqn:E.
  - destruct ((k <? 0) || (line_count <? k)); intros [= <- _]; auto.
  - intros [= <- _]. by apply test_count_raises in E.
Qed.

Lemma manifests_raises self test_index_set training_dir testing_dir
    trp tep (w w' : world) e :
  manifests self test_index_set training_dir testing_dir trp tep w
  = (Raise e, w') ->
  e = JSONDecodeError \/ e = IOError \/ e = FileNotFoundError.
Proof.
  unfold write_manifests, SE.bind, open_w, close, SE.modify, SE.lift.
  cbn [files set_files payload].
  destruct (_ !! realpath (_manifest_path self)) as [lines|].
  - destruct (loop _ _ _ _ _ _ _) as [[[]|e'] st] eqn:E; [discriminate|].
    intros [= <- _]. apply loop_raises in E. tauto.
  - intros [= <- _]. auto.
Qed.




(** *** The index set and the set-up *)



(** *** The routing *)


(** *** Ratio 1.0 *)


(** *** The guard *)

(** C3. On a dataset that is not created, [split] raises the
    "datasets has not been created" exception and leaves the world as
    it was: no directory made, no file written, no payload copied.  On
    a created dataset it never raises that exception. *)
Theorem split_requires_created (self : Dataset)
    (training_dir testing_dir : string) (ratio : spec_float)
    (random_state : Z) (w : world) :
  (created self = false ->
   split self training_dir testing_dir ratio random_state w
   = (Raise not_created, w))
  /\ (created self = true ->
      fst (split self training_dir testing_dir ratio random_state w)
      <> Raise not_created).
Proof.
  split.
  - intros Hc. unfold Datasets.split. by rewrite Hc.
  - intros Hc. rewrite split_unfold by done.
    destruct (draw _ _ _ _) as [[S|e] w1] eqn:Ed.
    + destruct (mkdirs testing_dir w1) as [[[]|e] w2] eqn:E1.
      * destruct (mkdirs training_dir w2) as [[[]|e] w3] eqn:E2.
        -- destruct (test_count _ _) as [k|e] eqn:Ek.
           ++ destruct (manifests _ _ _ _ _ _ _) as [[[]|e] w4] eqn:Em;
                [discriminate|].
              apply manifests_raises in Em. cbn.
              unfold not_created. intros [= ->].
              destruct Em as [|[|]]; discriminate.
           ++ apply test_count_raises in Ek. cbn.
              unfold not_created. intros [= ->]. destruct Ek; discriminate.
        -- apply mkdirs_raises in E2 as [_ E2]. cbn.
           unfold not_created. intros [= ->]. destruct E2; discriminate.
      * apply mkdirs_raises in E1 as [_ E1]. cbn.
        unfold not_created. intros [= ->]. destruct E1; discriminate.
    + apply draw_raises in Ed. cbn.
      unfold not_created. intros [= ->]. destruct Ed; discriminate.
Qed.

(** *** Further properties of [split] *)

Lemma manifests_rng self test_index_set training_dir testing_dir
    (trp tep : string) (w : world) :
  rng (manifests self test_index_set training_dir testing_dir trp tep w).2
  = rng w.
Proof.
  unfold write_manifests, SE.bind, open_w, close, SE.modify, SE.lift.
  cbn [files set_files payload set_payload].
  destruct (_ !! realpath (_manifest_path self)) as [lines|];
    [destruct (loop _ _ _ _ _ _ _) as [r st]|]; reflexivity.
Qed.

Lemma split_rng (self : Dataset) (training_dir testing_dir : string)
    (ratio : spec_float) (random_state : Z) (w : world) :
  created self = true ->
  rng (split self training_dir testing_dir ratio random_state w).2
  = rng (draw (data_count self) ratio random_state w).2.
Proof.
  intros Hc. rewrite split_unfold by done.
  destruct (draw _ _ _ _) as [[S|e] w1]; [|reflexivity]. cbn [snd].
  pose proof (mkdirs_keeps testing_dir w1) as (H1 & _).
  destruct (mkdirs testing_dir w1) as [[[]|e] w2]; [|exact H1].
  cbn [snd] in H1.
  pose proof (mkdirs_keeps training_dir w2) as (H2 & _).
  destruct (mkdirs training_dir w2) as [[[]|e] w3];
    [|cbn [snd] in *; congruence].
  cbn [snd] in H2.
  destruct (test_count _ _) as [k|e]; [|cbn [snd]; congruence].
  pose proof (manifests_rng self S training_dir testing_dir
                (train_path training_dir) (test_path testing_dir) w3) as H3.
  destruct (manifests _ _ _ _ _ _ _) as [[[]|e] w4];
    cbn [snd] in *; congruence.
Qed.

(** X9. [split] overwrites numpy's global generator.  With a seed that
    numpy accepts, after the call on a created dataset the generator is
    in the state the seeding and the draw leave it in, whatever state it
    was in before and whatever else the world holds, also when the call
    raises.  With a seed outside [0 .. 2^32 - 1] the call raises
    [ValueError] and changes nothing, the generator included. *)
Theorem split_reseeds_generator (self : Dataset)
    (training_dir testing_dir : string) (ratio : spec_float)
    (random_state : Z) (w1 w2 : world) :
  created self = true ->
  (0 <= random_state < 2 ^ 32 ->
   rng (split self training_dir testing_dir ratio random_state w1).2
   = rng (split self training_dir testing_dir ratio random_state w2).2
   /\ (forall r, test_count (data_count self) ratio = Raise r ->
       rng (split self training_dir testing_dir ratio random_state w1).2
       = np_random_seed random_state)
   /\ (forall k, test_count (data_count self) ratio = Ok k ->
       0 <= k <= data_count self ->
       rng (split self training_dir testing_dir ratio random_state w1).2
       = (permutation_prefix (np_random_seed random_state)
            (data_count self) k).2))
  /\ (~ 0 <= random_state < 2 ^ 32 ->
      split self training_dir testing_dir ratio random_state w1
      = (Raise ValueError, w1)).
Proof.
  intros Hc. split.
  - intros Hseed.
    assert (Hrng : forall w,
      rng (split self training_dir testing_dir ratio random_state w).2
      = match test_count (data_count self) ratio with
        | Raise _ => np_random_seed random_state
        | Ok k =>
            if (k <? 0) || (data_count self <? k)
            then np_random_seed random_state
            else (permutation_prefix (np_random_seed random_state)
                    (data_count self) k).2
        end).
    { intros w. rewrite split_rng, draw_unfold, valid_seed by done.
      destruct (test_count _ _) as [k|e]; [|reflexivity].
      by destruct ((k <? 0) || (data_count self <? k)). }
    split; [by rewrite !Hrng|]. split.
    + intros r Hr. by rewrite Hrng, Hr.
    + intros k Hk Hrange. rewrite Hrng, Hk.
      replace ((k <? 0) || (data_count self <? k)) with false
        by (symmetry; apply orb_false_iff; split; apply Z.ltb_ge; lia).
      reflexivity.
  - intros Hseed.
    by rewrite split_unfold, draw_unfold, invalid_seed by done.
Qed.





End Facts.

(** *** The count at the default ratio *)

(** C1. On a created dataset of ten records with ratio 0.8, the
    example of the specification, the count
    [math.floor(line_count * (1 - ratio))] is 1: the float 0.8 lies
    above 8/10, so [1 - 0.8] lies below 2/10 and the product below 2.
    [split] draws one test index and returns datasets of 9 and 1
    records, whose manifests hold 9 and 1 lines, where the
    specification has [floor(10 * 0.2) = 2] test records and 8 train
    records. *)
Theorem split_count_at_default_ratio :
  (f8 <- Float64.of_int 8;; f10 <- Float64.of_int 10;;
   Ok (Float64.div f8 f10))%py = Ok Samples.ratio_08
  /\ Float64.in_unit_interval Samples.ratio_08 = true
  /\ spec_test_count 10 8 10 = 2
  /\ test_count 10 Samples.ratio_08 = Ok 1
  /\ exists (train test : Dataset)
            (w' : Datasets.world Ref.rng_state Ref.Payload)
            (train_lines test_lines : list string),
       files Samples.ten_world !! Ref.realpath (_manifest_path Samples.ten_ds)
       = Some Samples.ten_lines
       /\ length Samples.ten_lines = 10%nat
       /\ Samples.ref_split Samples.ten_ds "tr" "te" Samples.ratio_08 0
            Samples.ten_world
          = (Ok (train, test), w')
       /\ data_count test = 1 /\ data_count train = 9
       /\ files w' !! Ref.realpath (_manifest_path test) = Some test_lines
       /\ length test_lines = 1%nat
       /\ files w' !! Ref.realpath (_manifest_path train) = Some train_lines
       /\ length train_lines = 9%nat.
Proof.
  repeat (split; [vm_compute; reflexivity|]).
  eexists _, _, _, _, _.
  split; [vm_compute; reflexivity|].
  split; [reflexivity|].
  split; [vm_compute; reflexivity|].
  repeat (split; [vm_compute; reflexivity|]).
  vm_compute; reflexivity.
Qed.

End SplitFacts.

(** ** [load_as_np] *)

Module LoadFacts.

Import Py Datasets.

(** The positions of an interval, as a slice. *)
Lemma routed_interval {A} (a b i : Z) (rs : list A) :
  routed (fun j => (a <=? j) && (j <? b)) i rs
  = take (Z.to_nat (b - i) - Z.to_nat (a - i)) (drop (Z.to_nat (a - i)) rs).
Proof.
  revert i. induction rs as [|r rs IH]; intros i.
  - by rewrite drop_nil, take_nil.
  - cbn [routed]. rewrite IH.
    destruct (Z.leb_spec a i) as [Ha|Ha]; cbn [andb].
    + replace (Z.to_nat (a - i)) with 0%nat by lia.
      replace (Z.to_nat (a - (i + 1))) with 0%nat by lia.
      rewrite !drop_0, !Nat.sub_0_r.
      destruct (Z.ltb_spec i b) as [Hb|Hb].
      * replace (Z.to_nat (b - i)) with (S (Z.to_nat (b - (i + 1)))) by lia.
        done.
      * replace (Z.to_nat (b - i)) with 0%nat by lia.
        replace (Z.to_nat (b - (i + 1))) with 0%nat by lia.
        by rewrite take_0.
    + replace (Z.to_nat (a - i)) with (S (Z.to_nat (a - (i + 1)))) by lia.
      cbn [drop]. f_equal. lia.
Qed.

Lemma routed_from {A} (a i : Z) (rs : list A) :
  routed (fun j => a <=? j) i rs = drop (Z.to_nat (a - i)) rs.
Proof.
  revert i. induction rs as [|r rs IH]; intros i.
  - by rewrite drop_nil.
  - cbn [routed]. rewrite IH.
    destruct (Z.leb_spec a i) as [Ha|Ha].
    + replace (Z.to_nat (a - i)) with 0%nat by lia.
      replace (Z.to_nat (a - (i + 1))) with 0%nat by lia.
      by rewrite !drop_0.
    + replace (Z.to_nat (a - i)) with (S (Z.to_nat (a - (i + 1)))) by lia.
      done.
Qed.

Section Facts.

Variable json_loads : string -> option pyval.
Context {rng_state Payload : Type}.
Variable realpath : string -> string.
Context {Image Array NdArray : Type}.
Variable Image_open : pyval -> result Image.
Variable np_asarray : Image -> result Array.
Variable np_array : list Array -> result NdArray.

Abbreviation world := (Datasets.world rng_state Payload).
Abbreviation record := (load_record Image Array Image_open np_asarray).
Abbreviation loop :=
  (load_loop json_loads Image Array Image_open np_asarray).
Abbreviation load :=
  (load_as_np json_loads rng_state Payload realpath Image Array NdArray
     Image_open np_asarray np_array).

(** A line that is a record: it decodes, and the body of the loop
    gives [r] for it. *)
Abbreviation loads_to :=
  (fun (line : string) (r : Array * pyval) =>
     exists v, json_loads line = Some v /\ record v = Ok r).

Lemma loop_window (offset limit : Z) (lines : list string)
    (rs : list (Array * pyval)) :
  Forall2 loads_to lines rs ->
  forall i images annotations,
    loop offset limit i lines images annotations
    = Ok (images ++ map fst (routed (in_window offset limit) i rs),
          annotations ++ map snd (routed (in_window offset limit) i rs)).
Proof.
  induction 1 as [|line r lines rs (v & Hv & Hr) Hrest IH];
    intros i images annotations.
  - cbn. by rewrite !app_nil_r.
  - cbn [load_loop routed]. rewrite Hv. cbn [Py.bind].
    destruct (Z.ltb_spec i offset) as [Ho|Ho].
    + assert (in_window offset limit i = false) as ->.
      { unfold in_window. by destruct (Z.leb_spec offset i); [lia|]. }
      apply IH.
    + destruct (limit =? -1) eqn:El; cbn [negb andb].
      * assert (in_window offset limit i = true) as ->.
        { unfold in_window. rewrite El.
          by destruct (Z.leb_spec offset i); [|lia]. }
        rewrite Hr. cbn [Py.bind]. rewrite IH. cbn [map fst snd].
        by rewrite <- !app_assoc.
      * destruct (Z.leb_spec (offset + limit) i) as [Hb|Hb].
        -- assert (forall k l, i <= k ->
                     routed (A := Array * pyval)
                       (in_window offset limit) k l = []) as Hnil.
           { intros k l. revert k. induction l as [|x l IHl]; intros k Hk.
             - done.
             - cbn [routed]. unfold in_window at 1. rewrite El.
               destruct (Z.ltb_spec k (offset + limit)); [lia|].
               rewrite andb_false_r. apply IHl. lia. }
           assert (in_window offset limit i = false) as ->.
           { unfold in_window. rewrite El.
             destruct (Z.ltb_spec i (offset + limit)); [lia|].
             by rewrite andb_false_r. }
           rewrite (Hnil (i + 1) rs) by lia. cbn [map].
           by rewrite !app_nil_r.
        -- assert (in_window offset limit i = true) as ->.
           { unfold in_window. rewrite El.
             destruct (Z.leb_spec offset i); [|lia].
             by destruct (Z.ltb_spec i (offset + limit)); [|lia]. }
           rewrite Hr. cbn [Py.bind]. rewrite IH. cbn [map fst snd].
           by rewrite <- !app_assoc.
Qed.

Lemma window_bounded {A} (offset limit : Z) (rs : list A) :
  limit <> -1 ->
  routed (in_window offset limit) 0 rs
  = take (Z.to_nat (offset + limit) - Z.to_nat offset)
      (drop (Z.to_nat offset) rs).
Proof.
  intros Hl.
  rewrite (SplitFacts.routed_ext _
             (fun j => (offset <=? j) && (j <? offset + limit))).
  - by rewrite routed_interval, !Z.sub_0_r.
  - intros i _. unfold in_window.
    by destruct (Z.eqb_spec limit (-1)).
Qed.

Lemma window_unbounded {A} (offset : Z) (rs : list A) :
  routed (in_window offset (-1)) 0 rs = drop (Z.to_nat offset) rs.
Proof.
  rewrite (SplitFacts.routed_ext _ (fun j => offset <=? j)).
  - by rewrite routed_from, Z.sub_0_r.
  - intros i _. unfold in_window. cbn. by rewrite andb_true_r.
Qed.

Lemma load_unfold (self : Dataset) (offset limit : Z) (w : world)
    (lines : list string) :
  files w !! realpath (_manifest_path self) = Some lines ->
  load self offset limit w
  = ((r <- loop offset limit 0 lines [] [];;
      images <- np_array r.1;;
      Ok (images, r.2))%py, w).
Proof.
  intros Hf. unfold load_as_np, SE.bind, read_lines, SE.lift, SE.ret.
  rewrite Hf. destruct (loop offset limit 0 lines [] []) as [r|e]; [|done].
  cbn [Py.bind]. by destruct (np_array r.1).
Qed.

(** X20. With a limit other than [-1], on a manifest whose lines are all
    records, [load_as_np] passes to [np.array] the arrays of the records
    at the positions from [offset] up to [offset + limit], and returns
    their annotations beside its result; the files are left as they
    are.  An offset below zero skips nothing and shortens the window, a
    limit below [-1] gives no record at all. *)
Theorem load_as_np_window (self : Dataset) (offset limit : Z) (w : world)
    (lines : list string) (rs : list (Array * pyval)) :
  files w !! realpath (_manifest_path self) = Some lines ->
  Forall2 loads_to lines rs ->
  limit <> -1 ->
  let window :=
    take (Z.to_nat (offset + limit) - Z.to_nat offset)
      (drop (Z.to_nat offset) rs) in
  load self offset limit w
  = ((images <- np_array (map fst window);;
      Ok (images, map snd window))%py, w).
Proof.
  intros Hf Hrs Hl window. rewrite (load_unfold _ _ _ _ lines Hf).
  rewrite (loop_window offset limit lines rs Hrs 0 [] []).
  cbn [Py.bind fst snd app]. by rewrite window_bounded.
Qed.

(** X21. With the default limit [-1], every record from [offset] on is
    loaded. *)
Theorem load_as_np_no_limit (self : Dataset) (offset : Z) (w : world)
    (lines : list string) (rs : list (Array * pyval)) :
  files w !! realpath (_manifest_path self) = Some lines ->
  Forall2 loads_to lines rs ->
  load self offset (-1) w
  = ((images <- np_array (map fst (drop (Z.to_nat offset) rs));;
      Ok (images, map snd (drop (Z.to_nat offset) rs)))%py, w).
Proof.
  intros Hf Hrs. rewrite (load_unfold _ _ _ _ lines Hf).
  rewrite (loop_window offset (-1) lines rs Hrs 0 [] []).
  cbn [Py.bind fst snd app]. by rewrite window_unbounded.
Qed.

Lemma loop_skipped_line (offset limit : Z) (l1 l2 : list string)
    (bad : string) :
  Forall (fun line => is_Some (json_loads line)) l1 ->
  json_loads bad = None ->
  forall i images annotations,
    i + Z.of_nat (length l1) < offset ->
    loop offset limit i (l1 ++ bad :: l2) images annotations
    = Raise JSONDecodeError.
Proof.
  intros Hl1 Hbad. induction Hl1 as [|line l1 [v Hv] _ IH];
    intros i images annotations Hi.
  - cbn [app load_loop]. by rewrite Hbad.
  - cbn [app load_loop]. rewrite Hv. cbn [Py.bind].
    cbn [length] in Hi.
    destruct (Z.ltb_spec i offset); [|lia]. apply IH. lia.
Qed.

(** X22. The lines before [offset] are skipped, but each of them is decoded
    first: a line there that is no JSON text makes [load_as_np] raise,
    although no record of it would have been loaded. *)
Theorem load_as_np_decodes_skipped_lines (self : Dataset)
    (offset limit : Z) (w : world) (l1 l2 : list string) (bad : string) :
  files w !! realpath (_manifest_path self) = Some (l1 ++ bad :: l2) ->
  Forall (fun line => is_Some (json_loads line)) l1 ->
  json_loads bad = None ->
  Z.of_nat (length l1) < offset ->
  load self offset limit w = (Raise JSONDecodeError, w).
Proof.
  intros Hf Hl1 Hbad Hlen. rewrite (load_unfold _ _ _ _ _ Hf).
  by rewrite (loop_skipped_line offset limit l1 l2 bad Hl1 Hbad 0 [] [])
    by lia.
Qed.

Lemma loop_after_break (offset limit : Z) (l1 l2 : list string) :
  limit <> -1 ->
  l1 <> [] ->
  forall i images annotations,
    Z.max offset (offset + limit) < i + Z.of_nat (length l1) ->
    loop offset limit i (l1 ++ l2) images annotations
    = loop offset limit i l1 images annotations.
Proof.
  intros Hl. induction l1 as [|line rest IH]; [done|].
  intros _ i images annotations Hi.
  cbn [app load_loop]. destruct (json_loads line) as [v|]; [|done].
  cbn [Py.bind]. cbn [length] in Hi.
  destruct (Z.eqb_spec limit (-1)) as [|_]; [done|]. cbn [negb andb].
  destruct (Z.ltb_spec i offset).
  - destruct rest as [|x rest]; [cbn [length] in Hi; lia|].
    apply IH; [done|]. cbn [length] in *. lia.
  - destruct (Z.leb_spec (offset + limit) i); [done|].
    destruct (record v) as [r|]; [|done]. cbn [Py.bind].
    destruct rest as [|x rest]; [cbn [length] in Hi; lia|].
    apply IH; [done|]. cbn [length] in *. lia.
Qed.

(** X23. With a limit other than [-1] the loop stops at the first position
    that is neither below [offset] nor below [offset + limit]: what
    follows that line in the manifest is not read, and has no part in
    the result or in an error. *)
Theorem load_as_np_ignores_lines_after_break (self : Dataset)
    (offset limit : Z) (w1 w2 : world) (l1 l2 : list string) :
  limit <> -1 ->
  Z.max 0 (Z.max offset (offset + limit)) < Z.of_nat (length l1) ->
  files w1 !! realpath (_manifest_path self) = Some (l1 ++ l2) ->
  files w2 !! realpath (_manifest_path self) = Some l1 ->
  (load self offset limit w1).1 = (load self offset limit w2).1.
Proof.
  intros Hl Hlen Hf1 Hf2.
  rewrite (load_unfold _ _ _ _ _ Hf1), (load_unfold _ _ _ _ _ Hf2).
  cbn [fst]. rewrite loop_after_break; [done|done| |lia].
  intros ->. cbn [length] in Hlen. lia.
Qed.

End Facts.

End LoadFacts.

(** ** The reference environment meets the assumptions *)

Module RefFacts.

Import Datasets Samples.












End RefFacts.

(** ** The theorems on the sample inputs *)

Module Examples.

Import Datasets Samples RefFacts.

Lemma test_index_set_deterministic_witness :
  fst (ref_draw (data_count sample_ds) half 5 sample_world)
  = fst (ref_draw (data_count sample_ds) half 5 sample_world2).
Proof.
  exact (SplitFacts.test_index_set_deterministic Ref.rng_state
           Ref.np_random_seed Ref.permutation_prefix Ref.Payload
           sample_ds sample_ds half 5 sample_world sample_world2 eq_refl).
Defined.

Lemma split_requires_created_witness :
  (created uncreated_ds = false ->
   ref_split uncreated_ds "tr" "te" half 5 sample_world
   = (Raise not_created, sample_world))
  /\ (created uncreated_ds = true ->
      fst (ref_split uncreated_ds "tr" "te" half 5 sample_world)
      <> Raise not_created).
Proof.
  exact (SplitFacts.split_requires_created Ref.json_loads Ref.json_dumps
           Ref.rng_state Ref.np_random_seed Ref.permutation_prefix
           Ref.Payload Ref.dataset_copy_file Ref.realpath
           uncreated_ds "tr" "te" half 5 sample_world).
Defined.







(** *** The further properties *)

Lemma split_reseeds_generator_witness :
  rng (ref_split sample_ds "tr" "te" half 5 sample_world).2
  = rng (ref_split sample_ds "tr" "te" half 5 sample_world2).2.
Proof.
  refine (proj1 (proj1 (SplitFacts.split_reseeds_generator Ref.json_loads
                  Ref.json_dumps Ref.rng_state Ref.np_random_seed
                  Ref.permutation_prefix Ref.Payload Ref.dataset_copy_file
                  Ref.realpath sample_ds "tr" "te" half 5 sample_world
                  sample_world2 eq_refl) _)).
  lia.
Defined.






Lemma getitem_index_out_of_range_witness :
  fst (@TosFilesIO.__getitem__ unit unit string (fun _ => tt)
         (fun _ _ _ => Ok "raw") (TosFilesIO.base_methods Ok Ref.py_int)
         sample_dataset (PInt 1))
  = Raise IndexError.
Proof.
  apply (TosFilesIOFacts.getitem_index_out_of_range (fun _ => tt)
           (fun _ _ _ => Ok "raw") (TosFilesIO.base_methods Ok Ref.py_int)
           sample_dataset sample_buckets 1);
    [reflexivity|right; cbn; lia].
Defined.

Lemma getitem_negative_index_witness :
  @TosFilesIO.__getitem__ unit unit string (fun _ => tt)
    (fun _ _ _ => Ok "raw") (TosFilesIO.base_methods Ok Ref.py_int)
    sample_dataset (PInt (0 - Z.of_nat (length sample_buckets)))
  = @TosFilesIO.__getitem__ unit unit string (fun _ => tt)
      (fun _ _ _ => Ok "raw") (TosFilesIO.base_methods Ok Ref.py_int)
      sample_dataset (PInt 0).
Proof.
  apply (TosFilesIOFacts.getitem_negative_index (fun _ => tt)
           (fun _ _ _ => Ok "raw") (TosFilesIO.base_methods Ok Ref.py_int)
           sample_dataset sample_buckets sample_keys sample_annotations 0);
    [reflexivity..|cbn; lia].
Defined.

Lemma getitem_fetch_error_witness :
  fst (@TosFilesIO.__getitem__ unit unit string (fun _ => tt)
         (fun _ _ _ => Raise (Exception "NoSuchKey"))
         (TosFilesIO.base_methods Ok Ref.py_int) sample_dataset (PInt 0))
  = Raise (Exception "NoSuchKey").
Proof.
  apply (TosFilesIOFacts.getitem_fetch_error (fun _ => tt)
           (fun _ _ _ => Raise (Exception "NoSuchKey"))
           (TosFilesIO.base_methods Ok Ref.py_int) sample_dataset (PInt 0)
           (PStr "my-bucket") (PStr "cat.jpg") sample_annotation);
    reflexivity.
Defined.

Lemma getitem_with_hooks_witness :
  fst (@TosFilesIO.__getitem__ unit unit string (fun _ => tt)
         (fun _ _ _ => Ok "raw") (TosFilesIO.base_methods Ok Ref.py_int)
         hooked_dataset (PInt 0))
  = Ok ("raw-decoded-transformed", PInt 9).
Proof.
  apply (TosFilesIOFacts.getitem_with_hooks (fun _ => tt)
           (fun _ _ _ => Ok "raw") (TosFilesIO.base_methods Ok Ref.py_int)
           hooked_dataset (PInt 0) (PStr "my-bucket") (PStr "cat.jpg")
           sample_annotation "raw"
           (fun raw => Ok (raw ++ "-decoded")%string)
           (fun x => Ok (x ++ "-transformed")%string)
           (fun _ => Ok (PInt 9)));
    reflexivity.
Defined.

Lemma init_missing_key_witness :
  @TosFilesIO.__init__ unit unit string tt
    (PDict [("buckets", PList []); ("keys", PList [])]) None None None None
  = Raise KeyError.
Proof.
  apply (TosFilesIOFacts.init_missing_key (Client := unit)
           (Sample := string) tt
           [("buckets", PList []); ("keys", PList [])] None None None None).
  right. right. reflexivity.
Defined.

Lemma init_none_entry_witness :
  @TosFilesIO.__init__ unit unit string tt
    (PDict [("buckets", PList []); ("keys", PList []);
            ("annotations", PNone)]) None None None None
  = Raise AssertionError.
Proof.
  apply (TosFilesIOFacts.init_none_entry (Client := unit)
           (Sample := string) tt
           [("buckets", PList []); ("keys", PList []);
            ("annotations", PNone)]
           (PList []) (PList []) PNone None None None None);
    [reflexivity..|right; right; reflexivity].
Defined.

Lemma init_short_circuit_witness :
  @TosFilesIO.__init__ unit unit string tt
    (PDict [("buckets", PList [PStr "b"]); ("keys", PList []);
            ("annotations", PInt 0)]) None None None None
  = Raise AssertionError
  /\ @TosFilesIO.__init__ unit unit string tt
       (PDict [("buckets", PList []); ("keys", PList []);
               ("annotations", PInt 0)]) None None None None
     = Raise TypeError.
Proof.
  split.
  - apply (TosFilesIOFacts.init_short_circuit (Client := unit)
             (Sample := string) tt
             [("buckets", PList [PStr "b"]); ("keys", PList []);
              ("annotations", PInt 0)]
             [PStr "b"] [] 0 None None None None);
      reflexivity.
  - apply (TosFilesIOFacts.init_short_circuit (Client := unit)
             (Sample := string) tt
             [("buckets", PList []); ("keys", PList []);
              ("annotations", PInt 0)]
             [] [] 0 None None None None);
      reflexivity.
Defined.

Lemma parse_image_manifest_first_error_witness :
  parse_image_manifest Ref.json_loads Ref.rng_state Ref.Payload
    Ref.realpath "ds/local_metadata.manifest" broken_world
  = (Raise JSONDecodeError, broken_world).
Proof.
  apply (ManifestFacts.parse_image_manifest_first_error Ref.json_loads
           Ref.realpath broken_world "ds/local_metadata.manifest"
           (take 1 broken_lines) (drop 2 broken_lines) "{" JSONDecodeError);
    [reflexivity|repeat constructor|reflexivity].
Defined.

Lemma parse_url_correct_witness :
  parse_url "tos://my-bucket/path/to/img.jpg"
  = Ok ("my-bucket", "path/to/img.jpg").
Proof.
  apply (UrlFacts.parse_url_correct "tos" "my-bucket" "path/to/img.jpg");
    [reflexivity|discriminate|reflexivity..].
Defined.

Lemma parse_url_truncates_witness :
  parse_url "tos://data/images/data/cat.jpg" = Ok ("data", "images/").
Proof.
  apply (UrlFacts.parse_url_truncates "tos" "data" "images/" "cat.jpg");
    [reflexivity|discriminate|reflexivity..].
Defined.

Lemma parse_url_without_double_slash_witness :
  parse_url "my-bucket/cat.jpg" = Raise IndexError.
Proof.
  apply (UrlFacts.parse_url_without_double_slash "my-bucket/cat.jpg").
  reflexivity.
Defined.

Lemma parse_url_without_key_witness :
  parse_url "tos://my-bucket" = Raise IndexError.
Proof.
  apply (UrlFacts.parse_url_without_key "tos" "my-bucket");
    [reflexivity|discriminate|reflexivity..].
Defined.

Lemma parse_manifest_line_record_witness :
  parse_manifest_line Ref.json_loads
    (Ref.json_dumps (Ref.record "tos://my-bucket/cat.jpg" 0))
  = Ok (PStr "my-bucket", PStr "cat.jpg",
        PDict [("Result", PList [PDict [("Data",
                 PList [PDict [("Label", PInt 0)]])]])]).
Proof.
  apply (UrlFacts.parse_manifest_line_record Ref.json_loads
           (Ref.json_dumps (Ref.record "tos://my-bucket/cat.jpg" 0))
           [("Data", PDict [("ImageURL", PStr "tos://my-bucket/cat.jpg")]);
            ("Annotation",
             PDict [("Result", PList [PDict [("Data",
                      PList [PDict [("Label", PInt 0)]])]])])]
           [("ImageURL", PStr "tos://my-bucket/cat.jpg")]
           "tos" "my-bucket" "cat.jpg");
    [reflexivity..|discriminate|reflexivity|reflexivity|reflexivity].
Defined.

Lemma local_lines_load :
  Forall2 (fun line r =>
             exists v, Ref.json_loads_local line = Some v
                       /\ load_record string string Ref.Image_open Ok v
                          = Ok r)
    local_lines local_records.
Proof.
  repeat (constructor; [eexists; split; reflexivity|]). constructor.
Qed.

Lemma load_as_np_window_witness :
  ref_load sample_ds 1 2 local_world
  = (Ok (["ds/b.jpg"; "ds/c.jpg"], [PInt 1; PInt 2]), local_world).
Proof.
  apply (LoadFacts.load_as_np_window Ref.json_loads_local Ref.realpath
           Ref.Image_open Ok Ok sample_ds 1 2 local_world local_lines
           local_records);
    [reflexivity|exact local_lines_load|discriminate].
Defined.

Lemma load_as_np_no_limit_witness :
  ref_load sample_ds 2 (-1) local_world
  = (Ok (["ds/c.jpg"; "ds/d.jpg"], [PInt 2; PInt 3]), local_world).
Proof.
  apply (LoadFacts.load_as_np_no_limit Ref.json_loads_local Ref.realpath
           Ref.Image_open Ok Ok sample_ds 2 local_world local_lines
           local_records);
    [reflexivity|exact local_lines_load].
Defined.

Lemma load_as_np_decodes_skipped_lines_witness :
  ref_load sample_ds 2 1 broken_local_world
  = (Raise JSONDecodeError, broken_local_world).
Proof.
  apply (LoadFacts.load_as_np_decodes_skipped_lines Ref.json_loads_local
           Ref.realpath Ref.Image_open Ok Ok sample_ds 2 1 broken_local_world
           (take 1 local_lines) (drop 2 local_lines) "{");
    [reflexivity|repeat (constructor; [by eexists|]); constructor
    |reflexivity|cbn; lia].
Defined.

Lemma load_as_np_ignores_lines_after_break_witness :
  (ref_load sample_ds 0 2 local_world).1
  = (ref_load sample_ds 0 2 shorter_world).1.
Proof.
  apply (LoadFacts.load_as_np_ignores_lines_after_break
           Ref.json_loads_local Ref.realpath Ref.Image_open Ok Ok sample_ds 0 2
           local_world shorter_world (take 3 local_lines)
           (drop 3 local_lines));
    [discriminate|cbn; lia|reflexivity|reflexivity].
Defined.

End Examples.
